(** * cardboard.flask_integration: session bookkeeping around an OAuth2 client

    A shallow embedding of [src/cardboard/flask_integration.py].  The Flask
    session is a finite map from key to scalar, the identity-service client
    and the HTTP layer are an oracle record ([World]), and every decorator is
    a computation in a state-and-exception monad whose state is the session
    together with a chronological log of the observable events (external
    calls, session writes, handler invocations). *)

From Stdlib Require Import ZArith SpecFloat.
From stdpp Require Import base option list strings gmap fin_maps.

Local Open Scope Z_scope.

(** ** Python values *)

(** Scalars that live in the session, in request arguments and in the
    form/JSON dictionaries: [None], a [str] or an [int], the kinds the token
    fields have.  [float] and [bool] scalars are outside this type; the
    statements below name the kind of every scalar they depend on. *)
Inductive atom : Type :=
  | ANone
  | AStr (s : string)
  | AInt (z : Z).

(** Python truthiness: [None], the empty string and [0] are falsy. *)
Definition truthy (a : atom) : bool :=
  match a with
  | ANone => false
  | AStr s => negb (String.eqb s "")
  | AInt z => negb (z =? 0)
  end.

Inductive exn : Type :=
  | KeyError (key : string)
  | TypeError
  | ValueError (msg : string)
  | ClientError (msg : string).

(** What a call does: it returns a value or raises. *)
Inductive outcome (A : Type) : Type :=
  | Returned (a : A)
  | Raised (e : exn).
Arguments Returned {A} a.
Arguments Raised {A} e.

(** [a - b] and [a + b] on Python scalars: defined on two ints, a
    [TypeError] otherwise (no [str - int], no [None + int]). *)
Definition py_sub (a b : atom) : outcome atom :=
  match a, b with
  | AInt x, AInt y => Returned (AInt (x - y))
  | _, _ => Raised TypeError
  end.

Definition py_add (a b : atom) : outcome atom :=
  match a, b with
  | AInt x, AInt y => Returned (AInt (x + y))
  | AStr x, AStr y => Returned (AStr (x +:+ y))
  | _, _ => Raised TypeError
  end.

(** Modelled from the spec: the [AuthToken] class of the external client
    library is not part of the sources.  The spec describes it as a value
    object holding the access token, the refresh token, the [expires_in]
    seconds and the token type, built from a data dict shaped like
    [{access_token, refresh_token, expires_in, token_type}]; the decorators
    read its attributes [token], [expires_in] and [refresh_token]. *)
Record AuthToken : Type := mkAuthToken {
  token : atom;
  refresh_token : atom;
  expires_in : atom;
  token_type : atom
}.

(** Modelled from the spec: the constructor [AuthToken(data)].  The three
    fields the decorators read are looked up by subscript (a missing key is
    a [KeyError]); the spec's exchange scenario has no [token_type] in the
    response, so that field is read with a [None] default. *)
Definition AuthToken_init (data : gmap string atom) : outcome AuthToken :=
  match data !! "access_token" with
  | None => Raised (KeyError "access_token")
  | Some t =>
    match data !! "refresh_token" with
    | None => Raised (KeyError "refresh_token")
    | Some r =>
      match data !! "expires_in" with
      | None => Raised (KeyError "expires_in")
      | Some e =>
        Returned {| token := t; refresh_token := r; expires_in := e;
                    token_type := default ANone (data !! "token_type") |}
      end
    end
  end.

(** What a route handler can be handed and what the decorators pass
    around: a scalar or an [AuthToken] object. *)
Inductive pyval : Type :=
  | VAtom (a : atom)
  | VAuthToken (t : AuthToken).

(** A parsed JSON body, by the Python type [response.json()] gives it:
    [None], [bool], [int], [float], [str], [list] or [dict].  Lines 106 and
    189 test [type(response) == int], which holds of [JInt] alone: a [bool]
    or a [float] body is not an [int] there.  The members of an object are
    kept to the scalars of [atom]. *)
#[warnings="-register-all"]
Inductive json : Type :=
  | JNull
  | JBool (b : bool)
  | JInt (z : Z)
  | JFloat (x : spec_float)
  | JStr (s : string)
  | JArr (items : list json)
  | JObj (d : gmap string atom).

(** A Flask response: a redirect or some content. *)
Inductive response : Type :=
  | Redirect (location : atom)
  | Content (body : string).

(** ** The collaborators *)

(** The data attributes of a [Cardboard] / [CardboardAsync] client. *)
Record Cardboard : Type := mkCardboard {
  secret : string;
  client_id : string;
  _baseurl : string;
  app_url : string
}.

Record HttpResponse : Type := mkHttpResponse {
  status : Z;
  response_json : outcome json
}.

(** Everything outside this module that a request can observe: the client
    library's constructor and calls, the HTTP client, and the clock
    ([time_now] is [round(time.time())]; every path reads it at most once). *)
Record World : Type := mkWorld {
  CardboardAsync : string -> string -> Cardboard;
  check_token : atom -> outcome bool;
  revoke_token : atom -> outcome unit;
  client_refresh_token : atom -> outcome AuthToken;
  http_post : string -> gmap string atom -> gmap string atom -> outcome HttpResponse;
  time_now : Z
}.

Record Flask : Type := mkFlask { secret_key : option string }.

Record Request : Type := mkRequest {
  args_code : option string;   (* request.args.get('code') *)
  url : string                 (* request.url *)
}.

(** A route function: positional arguments, keyword arguments and the
    session it may read and mutate. *)
Definition handler : Type :=
  list pyval -> list (string * pyval) -> gmap string atom ->
  outcome response * gmap string atom.

(** ** Requests as computations *)

Inductive event : Type :=
  | EvCheckToken (tok : atom)
  | EvRefreshToken (refresh : atom)
  | EvRevokeToken (tok : atom)
  | EvPost (target : string) (data headers : gmap string atom)
  | EvSessionSet (key : string) (v : atom)
  | EvSessionPop (key : string)
  | EvHandler (args : list pyval) (kwargs : list (string * pyval))
              (snapshot : gmap string atom).

Record State : Type := mkState {
  sess : gmap string atom;
  trace : list event
}.

Definition log (ev : event) (st : State) : State :=
  {| sess := sess st; trace := trace st ++ [ev] |}.

(** State survives a raise, as the session object does in Python. *)
Definition M (A : Type) : Type := State -> outcome A * State.

Definition ret {A} (a : A) : M A := fun st => (Returned a, st).

Definition bind {A B} (m : M A) (k : A -> M B) : M B :=
  fun st =>
    match m st with
    | (Returned a, st') => k a st'
    | (Raised e, st') => (Raised e, st')
    end.

Definition lift {A} (o : outcome A) : M A := fun st => (o, st).

(** [try: x = m / except: h] followed by [k x] outside the [try]. *)
Definition try_except {A B} (m : M A) (k : A -> M B) (h : M B) : M B :=
  fun st =>
    match m st with
    | (Returned a, st') => k a st'
    | (Raised _, st') => h st'
    end.

Declare Scope py_scope.
Delimit Scope py_scope with py.
Notation "x <- m ;; k" := (bind m (fun x => k))
  (at level 100, m at next level, right associativity) : py_scope.
Notation "m ;;; k" := (bind m (fun _ => k))
  (at level 100, right associativity) : py_scope.
Local Open Scope py_scope.

Definition run {A} (m : M A) (s : gmap string atom) : outcome A * State :=
  m {| sess := s; trace := [] |}.

(** *** The session bridge *)

Definition session_lookup (s : gmap string atom) (key : string) : atom :=
  default ANone (s !! key).

(** [session.get(key)] *)
Definition session_get (key : string) : M atom :=
  fun st => (Returned (session_lookup (sess st) key), st).

(** [session[key] = v] *)
Definition session_set (key : string) (v : atom) : M unit :=
  fun st => (Returned tt,
             {| sess := <[key := v]> (sess st);
                trace := trace st ++ [EvSessionSet key v] |}).

(** [session.pop(key)]: a [KeyError] when the key is absent. *)
Definition session_pop (key : string) : M atom :=
  fun st =>
    match sess st !! key with
    | Some v => (Returned v,
                 {| sess := delete key (sess st);
                    trace := trace st ++ [EvSessionPop key] |})
    | None => (Raised (KeyError key), st)
    end.

(** [session.pop(key, None)] *)
Definition session_pop_default (key : string) : M atom :=
  fun st => (Returned (session_lookup (sess st) key),
             {| sess := delete key (sess st);
                trace := trace st ++ [EvSessionPop key] |}).

(** *** Calls into the world *)

Definition call_check_token (w : World) (tok : atom) : M bool :=
  fun st => (check_token w tok, log (EvCheckToken tok) st).

Definition call_refresh_token (w : World) (refresh : atom) : M AuthToken :=
  fun st => (client_refresh_token w refresh, log (EvRefreshToken refresh) st).

Definition call_revoke_token (w : World) (tok : atom) : M unit :=
  fun st => (revoke_token w tok, log (EvRevokeToken tok) st).

Definition call_route (route_function : handler) (args : list pyval)
    (kwargs : list (string * pyval)) : M response :=
  fun st =>
    let '(r, s') := route_function args kwargs (sess st) in
    (r, {| sess := s'; trace := trace st ++ [EvHandler args kwargs (sess st)] |}).

(** ** class FlaskIntegration *)

Record FlaskIntegration : Type := mkFlaskIntegration {
  fi_app : Flask;
  cb : Cardboard;
  fi_secret : string;
  fi_client_id : string;
  session_token : string;
  session_refresh : string;
  session_expiry : string;
  session_rd : string;
  app_login_redirect : string
}.

(** [__init__]; [login_url] is [None] or a string, and [not login_url]
    holds for [None] and for the empty string. *)
Definition FlaskIntegration_init (w : World) (app : Flask) (cardboard : Cardboard)
    (session_prefix : string) (login_url : option string) : outcome FlaskIntegration :=
  let the_secret := secret cardboard in
  let the_client_id := client_id cardboard in
  let the_cb := CardboardAsync w the_client_id the_secret in
  let self :=
    {| fi_app := app;
       cb := the_cb;
       fi_secret := the_secret;
       fi_client_id := the_client_id;
       session_token := session_prefix +:+ "token";
       session_refresh := session_prefix +:+ "refresh";
       session_expiry := session_prefix +:+ "expiry";
       session_rd := session_prefix +:+ "rd";
       app_login_redirect :=
         match login_url with
         | Some u => if String.eqb u "" then app_url the_cb else u
         | None => app_url the_cb
         end |} in
  match secret_key app with
  | Some k =>
    if String.eqb k "" then
      Raised (ValueError "Flask app secret key is not set or is empty.")
    else Returned self
  | None => Raised (ValueError "Flask app secret key is not set or is empty.")
  end.

(** [_constructAuthToken] *)
Definition _constructAuthToken (self : FlaskIntegration) (w : World)
    (tok expiry refresh : atom) : outcome AuthToken :=
  match py_sub expiry (AInt (time_now w)) with
  | Raised e => Raised e
  | Returned remaining =>
    let data : gmap string atom :=
      <["access_token" := tok]>
        (<["refresh_token" := refresh]>
           (<["expires_in" := remaining]>
              (<["token_type" := AStr "Bearer"]> ∅))) in
    AuthToken_init data
  end.

(** [asyncpost]: the parsed JSON on status 200, else the status code. *)
Definition asyncpost (w : World) (target : string)
    (data headers : gmap string atom) : M json :=
  fun st =>
    let st' := log (EvPost target data headers) st in
    match http_post w target data headers with
    | Raised e => (Raised e, st')
    | Returned resp =>
      if status resp =? 200 then (response_json resp, st')
      else (Returned (JInt (status resp)), st')
    end.

(** The form body and header of the code exchange, lines 97-105. *)
Definition exchange_data (self : FlaskIntegration) (code : string) : gmap string atom :=
  <["code" := AStr code]>
    (<["client_id" := AStr (fi_client_id self)]>
       (<["client_secret" := AStr (fi_secret self)]>
          (<["grant_type" := AStr "authorization_code"]> ∅))).

Definition exchange_headers : gmap string atom :=
  <["Content-Type" := AStr "application/x-www-form-urlencoded"]> ∅.

Definition token_endpoint (self : FlaskIntegration) : string :=
  _baseurl (cb self) +:+ "/token".

(** [AuthToken(response)] on what [asyncpost] returned.  The constructor
    subscripts its argument with the field names, which only a [dict]
    supports: on any other body Python raises [TypeError]. *)
Definition AuthToken_of_json (j : json) : outcome AuthToken :=
  match j with
  | JObj d => AuthToken_init d
  | _ => Raised TypeError
  end.

Definition code_truthy (code : option string) : bool :=
  match code with
  | Some c => negb (String.eqb c "")
  | None => false
  end.

Definition code_value (code : option string) : atom :=
  match code with
  | Some c => AStr c
  | None => ANone
  end.

Definition code_string (code : option string) : string :=
  match code with
  | Some c => c
  | None => ""
  end.

(** [thetoken and check_token(thetoken)]: the check is only made for a
    truthy stored token. *)
Definition stored_token_valid (w : World) (thetoken : atom) : M bool :=
  if truthy thetoken then call_check_token w thetoken else ret false.

(** Lines 91-95 and 114-118: call the route, then consume a pending
    redirect if the session holds one. *)
Definition route_then_pending_redirect (self : FlaskIntegration)
    (route_function : handler) (tok : pyval) (args : list pyval)
    (kwargs : list (string * pyval)) : M response :=
  result <- call_route route_function (tok :: args) kwargs ;;
  rd <- session_get (session_rd self) ;;
  if truthy rd then
    a <- session_pop (session_rd self) ;;
    ret (Redirect a)
  else ret result.

(** Lines 111-113: persist the token obtained by the code exchange. *)
Definition store_token (self : FlaskIntegration) (w : World) (tok : AuthToken) : M unit :=
  session_set (session_token self) (token tok) ;;;
  expiry <- lift (py_add (AInt (time_now w)) (expires_in tok)) ;;
  session_set (session_expiry self) expiry ;;;
  session_set (session_refresh self) (refresh_token tok).

(** [autologin]'s [decorator] *)
Definition autologin (self : FlaskIntegration) (w : World) (request : Request)
    (route_function : handler) (args : list pyval)
    (kwargs : list (string * pyval)) : M response :=
  let code := args_code request in
  thetoken <- session_get (session_token self) ;;
  valid <- stored_token_valid w thetoken ;;
  if valid then
    expiry <- session_get (session_expiry self) ;;
    refresh <- session_get (session_refresh self) ;;
    if truthy expiry && truthy refresh then
      tok <- lift (_constructAuthToken self w thetoken expiry refresh) ;;
      route_then_pending_redirect self route_function (VAuthToken tok) args kwargs
    else if truthy refresh then
      try_except (call_refresh_token w refresh)
        (fun tok =>
           route_then_pending_redirect self route_function (VAuthToken tok) args kwargs)
        (ret (Redirect (AStr (app_login_redirect self))))
    else
      route_then_pending_redirect self route_function (VAtom thetoken) args kwargs
  else if code_truthy code then
    resp <- asyncpost w (token_endpoint self)
              (exchange_data self (code_string code)) exchange_headers ;;
    match resp with
    | JInt _ => ret (Redirect (AStr (app_login_redirect self)))
    | _ =>
      tok <- lift (AuthToken_of_json resp) ;;
      store_token self w tok ;;;
      route_then_pending_redirect self route_function (VAuthToken tok) args kwargs
    end
  else ret (Redirect (AStr (app_login_redirect self))).

(** [login_code]'s [decorator] *)
Definition login_code (self : FlaskIntegration) (w : World) (request : Request)
    (route_function : handler) (args : list pyval)
    (kwargs : list (string * pyval)) : M response :=
  thetoken <- session_get (session_token self) ;;
  valid <- stored_token_valid w thetoken ;;
  if valid then call_route route_function (VAtom ANone :: args) kwargs
  else
    let code := args_code request in
    if negb (code_truthy code) then ret (Redirect (AStr (app_login_redirect self)))
    else call_route route_function (VAtom (code_value code) :: args) kwargs.

(** [login_autoexchange]'s [decorator] *)
Definition login_autoexchange (self : FlaskIntegration) (w : World) (request : Request)
    (route_function : handler) (args : list pyval)
    (kwargs : list (string * pyval)) : M response :=
  let code := args_code request in
  thetoken <- session_get (session_token self) ;;
  valid <- stored_token_valid w thetoken ;;
  if valid then call_route route_function (VAtom thetoken :: args) kwargs
  else
    tok <- (if code_truthy code then
              resp <- asyncpost w (token_endpoint self)
                        (exchange_data self (code_string code)) exchange_headers ;;
              match resp with
              | JInt _ => ret (VAtom ANone)
              | _ => t <- lift (AuthToken_of_json resp) ;; ret (VAuthToken t)
              end
            else ret (VAtom ANone)) ;;
    call_route route_function (tok :: args) kwargs.

(** [logged_in]'s [decorator] *)
Definition logged_in (self : FlaskIntegration) (w : World) (request : Request)
    (route_function : handler) (args : list pyval)
    (kwargs : list (string * pyval)) : M response :=
  thetoken <- session_get (session_token self) ;;
  valid <- stored_token_valid w thetoken ;;
  if valid then
    tok <- session_get (session_token self) ;;
    expiry <- session_get (session_expiry self) ;;
    refresh <- session_get (session_refresh self) ;;
    if truthy expiry && truthy refresh then
      t <- lift (_constructAuthToken self w tok expiry refresh) ;;
      call_route route_function (VAuthToken t :: args) kwargs
    else if truthy refresh then
      try_except (call_refresh_token w refresh)
        (fun t => call_route route_function (VAuthToken t :: args) kwargs)
        (session_set (session_rd self) (AStr (url request)) ;;;
         ret (Redirect (AStr (app_login_redirect self))))
    else call_route route_function (VAtom tok :: args) kwargs
  else
    session_set (session_rd self) (AStr (url request)) ;;;
    ret (Redirect (AStr (app_login_redirect self))).

(** [autologout]'s [decorator] *)
Definition autologout (self : FlaskIntegration) (w : World) (request : Request)
    (route_function : handler) (args : list pyval)
    (kwargs : list (string * pyval)) : M response :=
  ot <- session_pop_default (session_token self) ;;
  session_pop_default (session_expiry self) ;;;
  session_pop_default (session_refresh self) ;;;
  session_pop_default (session_rd self) ;;;
  (if truthy ot then
     try_except (call_revoke_token w ot) (fun _ => ret tt) (ret tt)
   else ret tt) ;;;
  call_route route_function args kwargs.

(** ** Reading the event log *)

Definition handler_call (ev : event)
    : option (list pyval * list (string * pyval) * gmap string atom) :=
  match ev with
  | EvHandler a k s => Some (a, k, s)
  | _ => None
  end.

Definition post_call (ev : event)
    : option (string * gmap string atom * gmap string atom) :=
  match ev with
  | EvPost u d h => Some (u, d, h)
  | _ => None
  end.

Definition refresh_call (ev : event) : option atom :=
  match ev with
  | EvRefreshToken r => Some r
  | _ => None
  end.

Definition written_key (ev : event) : option string :=
  match ev with
  | EvSessionSet k _ => Some k
  | EvSessionPop k => Some k
  | _ => None
  end.

(** The route-function invocations of a run, in order, each with the
    arguments it received and the session it started from. *)
Definition handler_calls (tr : list event) := omap handler_call tr.
Definition post_calls (tr : list event) := omap post_call tr.
Definition refresh_calls (tr : list event) := omap refresh_call tr.
(** The session keys the decorator itself assigned or popped. *)
Definition written_keys (tr : list event) := omap written_key tr.

(** ** Running the computations *)

Definition response_of {A} (r : outcome A * State) : outcome A := r.1.
Definition final_session {A} (r : outcome A * State) : gmap string atom := sess r.2.
Definition events {A} (r : outcome A * State) : list event := trace r.2.

(** What lines 91-95 (and 114-118) do from a given state, written out
    without the monad; [route_then_pending_redirect_eq] below shows it is the
    same computation. *)
Definition after_route (self : FlaskIntegration) (route_function : handler)
    (tok : pyval) (args : list pyval) (kwargs : list (string * pyval))
    (st : State) : outcome response * State :=
  let called := trace st ++ [EvHandler (tok :: args) kwargs (sess st)] in
  match route_function (tok :: args) kwargs (sess st) with
  | (Raised e, s') => (Raised e, {| sess := s'; trace := called |})
  | (Returned result, s') =>
    match s' !! session_rd self with
    | Some a =>
      if truthy a then
        (Returned (Redirect a),
         {| sess := delete (session_rd self) s';
            trace := called ++ [EvSessionPop (session_rd self)] |})
      else (Returned result, {| sess := s'; trace := called |})
    | None => (Returned result, {| sess := s'; trace := called |})
    end
  end.

(** The route function was invoked exactly once, with first argument [tok]
    on the session [s], and the run's response and final session are the
    route function's own. *)
Definition handed_to_route (r : outcome response * State)
    (route_function : handler) (tok : pyval) (args : list pyval)
    (kwargs : list (string * pyval)) (s : gmap string atom) : Prop :=
  handler_calls (events r) = [(tok :: args, kwargs, s)] /\
  response_of r = (route_function (tok :: args) kwargs s).1 /\
  final_session r = (route_function (tok :: args) kwargs s).2.

(** The five decorators of the class, by name. *)
Inductive decorator : Type :=
  | Autologin
  | LoginCode
  | LoginAutoexchange
  | LoggedIn
  | Autologout.

Definition decorate (dec : decorator)
    : FlaskIntegration -> World -> Request -> handler -> list pyval ->
      list (string * pyval) -> M response :=
  match dec with
  | Autologin => autologin
  | LoginCode => login_code
  | LoginAutoexchange => login_autoexchange
  | LoggedIn => logged_in
  | Autologout => autologout
  end.

(** The four session keys are pairwise distinct. *)
Record keys_wf (self : FlaskIntegration) : Prop := {
  token_ne_refresh : session_token self <> session_refresh self;
  token_ne_expiry : session_token self <> session_expiry self;
  token_ne_rd : session_token self <> session_rd self;
  refresh_ne_expiry : session_refresh self <> session_expiry self;
  refresh_ne_rd : session_refresh self <> session_rd self;
  expiry_ne_rd : session_expiry self <> session_rd self
}.


(** ** A concrete deployment *)

Module Scenario.

Definition client : Cardboard :=
  {| secret := "s3cr3t"; client_id := "app-1";
     _baseurl := "https://id.example/api/v2";
     app_url := "https://id.example/auth/app-1" |}.

(** The token a successful refresh-token exchange returns. *)
Definition fresh : AuthToken :=
  {| token := AStr "T"; refresh_token := AStr "R"; expires_in := AInt 3600;
     token_type := AStr "Bearer" |}.

(** The JSON object the token endpoint answers with, and the token it
    makes. *)
Definition token_body : gmap string atom :=
  <["access_token" := AStr "T"]>
    (<["refresh_token" := AStr "R"]> (<["expires_in" := AInt 3600]> ∅)).

Definition exchanged : AuthToken :=
  {| token := AStr "T"; refresh_token := AStr "R"; expires_in := AInt 3600;
     token_type := ANone |}.

(** The identity service accepts the access token ["live"], the refresh
    token ["R0"] and the code ["abc123"]; revoking always fails. *)
Definition world : World :=
  {| CardboardAsync := fun cid sec =>
       {| secret := sec; client_id := cid;
          _baseurl := "https://id.example/api/v2";
          app_url := "https://id.example/auth/" +:+ cid |};
     check_token := fun t =>
       match t with
       | AStr a => Returned (String.eqb a "live")
       | _ => Returned false
       end;
     revoke_token := fun _ => Raised (ClientError "revoke failed");
     client_refresh_token := fun r =>
       match r with
       | AStr a =>
         if String.eqb a "R0" then Returned fresh
         else Raised (ClientError "invalid refresh token")
       | _ => Raised (ClientError "invalid refresh token")
       end;
     http_post := fun _ data _ =>
       match data !! "code" with
       | Some (AStr c) =>
         if String.eqb c "abc123" then
           Returned {| status := 200; response_json := Returned (JObj token_body) |}
         else
           Returned {| status := 400;
                       response_json := Raised (ValueError "no body") |}
       | _ => Returned {| status := 400;
                          response_json := Raised (ValueError "no body") |}
       end;
     time_now := 1700000000 |}.

Definition app : Flask := {| secret_key := Some "flask-secret" |}.

Definition fi : FlaskIntegration :=
  match FlaskIntegration_init world app client "cardboard_" None with
  | Returned self => self
  | Raised _ =>
    mkFlaskIntegration app client "" "" "" "" "" "" ""
  end.

Definition login_page : string := "https://id.example/auth/app-1".

(** A route that answers with a page and leaves the session alone. *)
Definition page : handler := fun _ _ s => (Returned (Content "ok"), s).

Definition plain_request : Request := {| args_code := None; url := "/dashboard" |}.
Definition code_request : Request :=
  {| args_code := Some "abc123"; url := "/login?code=abc123" |}.
Definition bad_code_request : Request :=
  {| args_code := Some "nope"; url := "/login?code=nope" |}.

(** An access token the service no longer accepts, with its refresh token
    and an expiry in the past. *)
Definition expired_session : gmap string atom :=
  <["cardboard_token" := AStr "stale"]>
    (<["cardboard_refresh" := AStr "R0"]>
       (<["cardboard_expiry" := AInt 1699990000]> ∅)).

(** A session holding only an access token the service accepts. *)
Definition live_session : gmap string atom :=
  <["cardboard_token" := AStr "live"]> ∅.

(** A valid access token with a refresh token and no expiry. *)
Definition refreshable_session : gmap string atom :=
  <["cardboard_token" := AStr "live"]>
    (<["cardboard_refresh" := AStr "R0"]> ∅).

(** A valid access token with a refresh token the service rejects. *)
Definition unrefreshable_session : gmap string atom :=
  <["cardboard_token" := AStr "live"]>
    (<["cardboard_refresh" := AStr "gone"]> ∅).

(** A logged-in session that [logged_in] earlier marked with the page to
    come back to. *)
Definition returning_session : gmap string atom :=
  <["cardboard_token" := AStr "live"]>
    (<["cardboard_rd" := AStr "/dashboard"]> ∅).

End Scenario.


(** ** More readers of the event log *)

Definition check_call (ev : event) : option atom :=
  match ev with
  | EvCheckToken t => Some t
  | _ => None
  end.

Definition revoke_call (ev : event) : option atom :=
  match ev with
  | EvRevokeToken t => Some t
  | _ => None
  end.

Definition check_calls (tr : list event) := omap check_call tr.
Definition revoke_calls (tr : list event) := omap revoke_call tr.

(** ** Further concrete inputs *)

Module Fixtures.


(** The identity service is unreachable: the validity check raises. *)
Definition down_world : World :=
  {| CardboardAsync := CardboardAsync Scenario.world;
     check_token := fun _ => Raised (ClientError "service down");
     revoke_token := revoke_token Scenario.world;
     client_refresh_token := client_refresh_token Scenario.world;
     http_post := http_post Scenario.world;
     time_now := 1700000000 |}.




(** The token endpoint cannot be reached: the POST raises. *)
Definition offline_world : World :=
  {| CardboardAsync := CardboardAsync Scenario.world;
     check_token := check_token Scenario.world;
     revoke_token := revoke_token Scenario.world;
     client_refresh_token := client_refresh_token Scenario.world;
     http_post := fun _ _ _ => Raised (ClientError "connection refused");
     time_now := 1700000000 |}.

(** A token endpoint that answers 200 with the empty object. *)
Definition hollow_world : World :=
  {| CardboardAsync := CardboardAsync Scenario.world;
     check_token := check_token Scenario.world;
     revoke_token := revoke_token Scenario.world;
     client_refresh_token := client_refresh_token Scenario.world;
     http_post := fun _ _ _ =>
       Returned {| status := 200; response_json := Returned (JObj ∅) |};
     time_now := 1700000000 |}.

(** A token endpoint that answers 200 with the JSON number [1.5]. *)
Definition float_world : World :=
  {| CardboardAsync := CardboardAsync Scenario.world;
     check_token := check_token Scenario.world;
     revoke_token := revoke_token Scenario.world;
     client_refresh_token := client_refresh_token Scenario.world;
     http_post := fun _ _ _ =>
       Returned {| status := 200;
                   response_json :=
                     Returned (JFloat (S754_finite false 3 (-1))) |};
     time_now := 1700000000 |}.

(** A valid access token stored with its refresh token and expiry. *)
Definition full_session : gmap string atom :=
  <["cardboard_token" := AStr "live"]>
    (<["cardboard_refresh" := AStr "R0"]>
       (<["cardboard_expiry" := AInt 1700003600]> ∅)).

(** A route that closes the account page and leaves a marker behind. *)
Definition marking_page : handler :=
  fun _ _ s => (Returned (Content "done"), <["seen" := AInt 1]> s).

End Fixtures.

(** * Properties *)

(** ** Session keys *)

Lemma append_inj_r (p a b : string) : p +:+ a = p +:+ b -> a = b.
Proof.
  induction p as [|c p IH]; simpl; intros H; [exact H|].
  injection H as H. exact (IH H).
Qed.

Lemma init_fields w app c p l self :
  FlaskIntegration_init w app c p l = Returned self ->
  session_token self = p +:+ "token" /\
  session_refresh self = p +:+ "refresh" /\
  session_expiry self = p +:+ "expiry" /\
  session_rd self = p +:+ "rd" /\
  fi_client_id self = client_id c /\
  fi_secret self = secret c /\
  cb self = CardboardAsync w (client_id c) (secret c).
Proof.
  unfold FlaskIntegration_init. intros H.
  destruct (secret_key app) as [k|]; [|discriminate].
  destruct (String.eqb k ""); [discriminate|].
  injection H as <-. simpl. repeat split.
Qed.

Lemma init_keys_wf w app c p l self :
  FlaskIntegration_init w app c p l = Returned self -> keys_wf self.
Proof.
  intros H. apply init_fields in H as (Ht & Hr & He & Hd & _).
  split; rewrite ?Ht, ?Hr, ?He, ?Hd; intros E; apply append_inj_r in E; discriminate.
Qed.

(** ** Equations of the building blocks *)

Ltac unfold_py :=
  unfold run, store_token, stored_token_valid,
    try_except, bind, ret, lift, session_get, session_set, session_pop,
    session_pop_default, call_check_token, call_refresh_token,
    call_revoke_token, call_route, asyncpost, log.

(** Case analysis on every [match] and [if] of a run. *)
Ltac split_run :=
  repeat (case_match; simpl in *; simplify_eq).

Lemma route_then_pending_redirect_eq self route_function tok args kwargs st :
  route_then_pending_redirect self route_function tok args kwargs st
  = after_route self route_function tok args kwargs st.
Proof.
  unfold route_then_pending_redirect, after_route. unfold_py.
  destruct (route_function _ _ _) as [[result|e] s']; simpl; [|reflexivity].
  unfold session_lookup.
  destruct (s' !! session_rd self) as [a|] eqn:E; simpl; [|reflexivity].
  destruct (truthy a); simpl; [|reflexivity].
  rewrite E. reflexivity.
Qed.

Lemma after_route_handler_calls self route_function tok args kwargs st :
  handler_calls (events (after_route self route_function tok args kwargs st))
  = handler_calls (trace st) ++ [(tok :: args, kwargs, sess st)].
Proof.
  unfold after_route, handler_calls, events.
  destruct (route_function _ _ _) as [[result|e] s']; simpl.
  - destruct (s' !! session_rd self) as [a|]; [destruct (truthy a)|]; simpl;
      rewrite ?omap_app; simpl; rewrite ?app_nil_r; reflexivity.
  - rewrite omap_app. reflexivity.
Qed.

Lemma after_route_refresh_calls self route_function tok args kwargs st :
  refresh_calls (events (after_route self route_function tok args kwargs st))
  = refresh_calls (trace st).
Proof.
  unfold after_route, refresh_calls, events.
  split_run; rewrite ?omap_app; simpl; rewrite ?app_nil_r; reflexivity.
Qed.

(** A pending redirect left by the route wins over its result and is
    consumed. *)
Lemma after_route_pending self route_function tok args kwargs st result s' v :
  route_function (tok :: args) kwargs (sess st) = (Returned result, s') ->
  s' !! session_rd self = Some v ->
  truthy v = true ->
  after_route self route_function tok args kwargs st
  = (Returned (Redirect v),
     {| sess := delete (session_rd self) s';
        trace := (trace st ++ [EvHandler (tok :: args) kwargs (sess st)])
                   ++ [EvSessionPop (session_rd self)] |}).
Proof.
  intros Hr Hv Ht. unfold after_route. rewrite Hr, Hv, Ht. reflexivity.
Qed.

(** Every decorator but [autologout] opens with the same two steps; these
    are the states they leave. *)
Lemma run_without_valid_token {A} (w : World) (key : string)
    (k : atom -> bool -> M A) (s : gmap string atom) :
  let thetoken := session_lookup s key in
  truthy thetoken = false \/ check_token w thetoken = Returned false ->
  run (thetoken <- session_get key ;;
       valid <- stored_token_valid w thetoken ;;
       k thetoken valid) s
  = k thetoken false
      {| sess := s;
         trace := if truthy thetoken then [EvCheckToken thetoken] else [] |}.
Proof.
  intros thetoken H. unfold run, bind, session_get, stored_token_valid. simpl.
  fold thetoken. unfold call_check_token, ret, log.
  destruct H as [H|H]; [rewrite H; reflexivity|].
  destruct (truthy thetoken); rewrite ?H; reflexivity.
Qed.

Lemma run_with_valid_token {A} (w : World) (key : string)
    (k : atom -> bool -> M A) (s : gmap string atom) :
  let thetoken := session_lookup s key in
  truthy thetoken = true ->
  check_token w thetoken = Returned true ->
  run (thetoken <- session_get key ;;
       valid <- stored_token_valid w thetoken ;;
       k thetoken valid) s
  = k thetoken true {| sess := s; trace := [EvCheckToken thetoken] |}.
Proof.
  intros thetoken H1 H2. unfold run, bind, session_get, stored_token_valid. simpl.
  fold thetoken. unfold call_check_token, ret, log. rewrite H1, H2. reflexivity.
Qed.

(** [_constructAuthToken] on an integer expiry: the data dict carries the
    seconds left on the clock and the fixed token type. *)
Lemma _constructAuthToken_int self w tok refresh (expiry : Z) :
  _constructAuthToken self w tok (AInt expiry) refresh
  = Returned {| token := tok; refresh_token := refresh;
                expires_in := AInt (expiry - time_now w);
                token_type := AStr "Bearer" |}.
Proof. reflexivity. Qed.

(** The state after lines 111-113. *)
Lemma store_token_run self w tok (e : Z) st :
  expires_in tok = AInt e ->
  store_token self w tok st
  = (Returned tt,
     {| sess :=
          <[session_refresh self := refresh_token tok]>
            (<[session_expiry self := AInt (time_now w + e)]>
               (<[session_token self := token tok]> (sess st)));
        trace :=
          trace st ++
          [EvSessionSet (session_token self) (token tok);
           EvSessionSet (session_expiry self) (AInt (time_now w + e));
           EvSessionSet (session_refresh self) (refresh_token tok)] |}).
Proof.
  intros He. unfold store_token. unfold_py. simpl. rewrite He. simpl.
  rewrite <- !app_assoc. reflexivity.
Qed.

(** ** Runs of [autologin] *)

(** Every [autologin] run either never reaches the route function or ends
    in lines 91-95 / 114-118, entered from a state without earlier calls. *)
Lemma autologin_shape self w request route_function args kwargs s :
  let r := run (autologin self w request route_function args kwargs) s in
  handler_calls (events r) = [] \/
  exists tok st0,
    r = after_route self route_function tok args kwargs st0 /\
    handler_calls (trace st0) = [].
Proof.
  unfold autologin. unfold_py. simpl.
  repeat (case_match; simpl in *; simplify_eq; try (left; reflexivity);
          rewrite ?route_then_pending_redirect_eq);
    try (right; eexists _, _; split; [reflexivity|reflexivity]).
Qed.

(** A valid stored token without a refresh token goes to the route function
    as it is. *)
Lemma autologin_stored_token_run self w request route_function args kwargs s :
  let thetoken := session_lookup s (session_token self) in
  truthy thetoken = true ->
  check_token w thetoken = Returned true ->
  truthy (session_lookup s (session_refresh self)) = false ->
  run (autologin self w request route_function args kwargs) s
  = after_route self route_function (VAtom thetoken) args kwargs
      {| sess := s; trace := [EvCheckToken thetoken] |}.
Proof.
  intros thetoken H1 H2 H3. unfold autologin.
  rewrite run_with_valid_token by assumption. fold thetoken.
  unfold bind, session_get. simpl. rewrite H3, andb_false_r.
  apply route_then_pending_redirect_eq.
Qed.

(** ** The concrete deployment *)

Lemma fi_init :
  FlaskIntegration_init Scenario.world Scenario.app Scenario.client
    "cardboard_" None
  = Returned Scenario.fi.
Proof. reflexivity. Qed.

Lemma fi_login_page : app_login_redirect Scenario.fi = Scenario.login_page.
Proof. reflexivity. Qed.

(** ** Claims about the refresh path *)

(** C1 does not hold as stated. The session holds an access token the service
    rejects, an expiry in the past and a refresh token the service would
    accept; neither decorator makes the refresh-token exchange, neither
    touches the token, refresh or expiry fields, and the route function is
    not invoked: both redirect to the login page. *)
Lemma expired_token_is_not_refreshed :
  let s := Scenario.expired_session in
  let r := run (autologin Scenario.fi Scenario.world Scenario.plain_request
                  Scenario.page [] []) s in
  let r' := run (logged_in Scenario.fi Scenario.world Scenario.plain_request
                   Scenario.page [] []) s in
  (check_token Scenario.world (session_lookup s (session_token Scenario.fi))
   = Returned false /\
   client_refresh_token Scenario.world
     (session_lookup s (session_refresh Scenario.fi))
   = Returned Scenario.fresh) /\
  (response_of r = Returned (Redirect (AStr Scenario.login_page)) /\
   refresh_calls (events r) = [] /\
   handler_calls (events r) = [] /\
   written_keys (events r) = [] /\
   final_session r !! session_token Scenario.fi = Some (AStr "stale") /\
   final_session r !! session_refresh Scenario.fi = Some (AStr "R0") /\
   final_session r !! session_expiry Scenario.fi = Some (AInt 1699990000)) /\
  (response_of r' = Returned (Redirect (AStr Scenario.login_page)) /\
   refresh_calls (events r') = [] /\
   handler_calls (events r') = [] /\
   written_keys (events r') = [session_rd Scenario.fi] /\
   final_session r' !! session_token Scenario.fi = Some (AStr "stale") /\
   final_session r' !! session_refresh Scenario.fi = Some (AStr "R0") /\
   final_session r' !! session_expiry Scenario.fi = Some (AInt 1699990000)).
Proof. vm_compute. repeat split. Qed.

(** The other reading of "expired": the service still accepts the stored
    token while the stored expiry lies in the past.  [autologin] rebuilds the
    token from the session with a negative [expires_in] and makes no
    refresh-token exchange either. *)
Example past_expiry_is_rebuilt_not_refreshed :
  let s : gmap string atom :=
    <["cardboard_token" := AStr "live"]> Scenario.expired_session in
  let r := run (autologin Scenario.fi Scenario.world Scenario.plain_request
                  Scenario.page [] []) s in
  refresh_calls (events r) = [] /\
  written_keys (events r) = [] /\
  (fun call => call.1.1) <$> handler_calls (events r)
  = [[VAuthToken {| token := AStr "live"; refresh_token := AStr "R0";
                    expires_in := AInt (-10000);
                    token_type := AStr "Bearer" |}]].
Proof. vm_compute. repeat split. Qed.

(** C1, amended. In [autologin] and [logged_in] the refresh-token exchange
    is made only when the stored token passes the validity check and the
    session holds a refresh token and no expiry; when it succeeds the route
    function is invoked with the new token on the unchanged session.  A
    stored token that fails the validity check is never refreshed:
    [logged_in], and [autologin] without a code, redirect to the login URL
    without invoking the route function and without writing the token,
    refresh or expiry keys. *)
Theorem refresh_exchange_only_for_valid_token
    (dec : decorator) (self : FlaskIntegration) (w : World) (request : Request)
    (route_function : handler) (args : list pyval)
    (kwargs : list (string * pyval)) (s : gmap string atom) :
  dec = Autologin \/ dec = LoggedIn ->
  let thetoken := session_lookup s (session_token self) in
  let expiry := session_lookup s (session_expiry self) in
  let refresh := session_lookup s (session_refresh self) in
  let r := run (decorate dec self w request route_function args kwargs) s in
  (refresh_calls (events r) <> [] ->
   truthy thetoken = true /\ check_token w thetoken = Returned true /\
   truthy expiry = false /\ truthy refresh = true) /\
  (forall new,
     truthy thetoken = true -> check_token w thetoken = Returned true ->
     truthy expiry = false -> truthy refresh = true ->
     client_refresh_token w refresh = Returned new ->
     refresh_calls (events r) = [refresh] /\
     handler_calls (events r) = [(VAuthToken new :: args, kwargs, s)]) /\
  (truthy thetoken = true -> check_token w thetoken = Returned false ->
   refresh_calls (events r) = [] /\
   (dec = LoggedIn \/ code_truthy (args_code request) = false ->
    response_of r = Returned (Redirect (AStr (app_login_redirect self))) /\
    handler_calls (events r) = [] /\
    Forall (fun key => key = session_rd self) (written_keys (events r)))).
Proof.
  intros Hdec thetoken expiry refresh r.
  pose proof after_route_handler_calls as Hcalls.
  pose proof after_route_refresh_calls as Hpop.
  unfold events, handler_calls in Hcalls. unfold events, refresh_calls in Hpop.
  split; [|split].
  - subst r thetoken expiry refresh.
    unfold events, refresh_calls.
    destruct Hdec as [-> | ->]; simpl decorate;
      [unfold autologin | unfold logged_in];
      unfold_py; simpl;
      repeat (case_match; simpl in *; simplify_eq;
              rewrite ?route_then_pending_redirect_eq, ?Hpop);
      simpl; try congruence; intros _;
      repeat match goal with
             | H : _ && _ = false |- _ => apply andb_false_iff in H as [H|H]
             end;
      repeat split; congruence.
  - intros new H1 H2 H3 H4 H5. subst r.
    unfold events, refresh_calls, handler_calls.
    destruct Hdec as [-> | ->]; simpl decorate;
      [unfold autologin | unfold logged_in];
      rewrite run_with_valid_token by assumption; fold thetoken;
      unfold_py; simpl; fold expiry refresh; rewrite H3, H4; simpl;
      rewrite H5; simpl.
    + rewrite route_then_pending_redirect_eq, Hpop, Hcalls. split; reflexivity.
    + destruct (route_function _ _ _). split; reflexivity.
  - intros H1 H2. subst r.
    unfold events, refresh_calls, handler_calls, written_keys, response_of.
    destruct Hdec as [-> | ->]; simpl decorate;
      [unfold autologin | unfold logged_in];
      rewrite run_without_valid_token by (right; exact H2); fold thetoken;
      rewrite H1.
    + split.
      * unfold_py. simpl.
        repeat (case_match; simpl in *; simplify_eq;
                rewrite ?route_then_pending_redirect_eq, ?Hpop);
          simpl; reflexivity.
      * intros [Hd | Hc]; [discriminate|]. rewrite Hc.
        repeat split; constructor.
    + split; [reflexivity|]. intros _. repeat split; repeat constructor.
Qed.

Lemma refresh_exchange_only_for_valid_token_witness :
  let r := run (autologin Scenario.fi Scenario.world Scenario.plain_request
                  Scenario.page [] []) Scenario.refreshable_session in
  refresh_calls (events r) = [AStr "R0"] /\
  handler_calls (events r)
  = [([VAuthToken Scenario.fresh], [], Scenario.refreshable_session)].
Proof.
  apply (refresh_exchange_only_for_valid_token Autologin Scenario.fi
           Scenario.world Scenario.plain_request Scenario.page [] []
           Scenario.refreshable_session (or_introl eq_refl));
    reflexivity.
Defined.

(** ** Claims about requests without a valid token *)

(** C2 does not hold of [login_autoexchange]: on an empty session and a
    request without a code the route function is invoked, with [None], and
    its page is the response. *)
Lemma login_autoexchange_without_token_or_code_calls_route :
  let r := run (login_autoexchange Scenario.fi Scenario.world
                  Scenario.plain_request Scenario.page [] []) ∅ in
  session_lookup ∅ (session_token Scenario.fi) = ANone /\
  args_code Scenario.plain_request = None /\
  response_of r = Returned (Content "ok") /\
  response_of r <> Returned (Redirect (AStr (app_login_redirect Scenario.fi))) /\
  handler_calls (events r) = [([VAtom ANone], [], ∅)].
Proof. vm_compute. repeat split. discriminate. Qed.

(** C2, amended. Without a valid stored token and without a code,
    [autologin], [logged_in] and [login_code] answer with a redirect to the
    login URL and never invoke the route function; [login_autoexchange]
    invokes it with [None] instead. *)
Theorem no_token_no_code_redirects_to_login
    (dec : decorator) (self : FlaskIntegration) (w : World) (request : Request)
    (route_function : handler) (args : list pyval)
    (kwargs : list (string * pyval)) (s : gmap string atom) :
  dec = Autologin \/ dec = LoggedIn \/ dec = LoginCode ->
  let thetoken := session_lookup s (session_token self) in
  truthy thetoken = false \/ check_token w thetoken = Returned false ->
  code_truthy (args_code request) = false ->
  let r := run (decorate dec self w request route_function args kwargs) s in
  (response_of r = Returned (Redirect (AStr (app_login_redirect self))) /\
   handler_calls (events r) = []) /\
  handed_to_route
    (run (decorate LoginAutoexchange self w request route_function args kwargs) s)
    route_function (VAtom ANone) args kwargs s.
Proof.
  intros Hdec thetoken Hinvalid Hcode r.
  split.
  - subst r. unfold response_of, events, handler_calls.
    destruct Hdec as [-> | [-> | ->]]; simpl decorate;
      [unfold autologin | unfold logged_in | unfold login_code];
      rewrite run_without_valid_token by exact Hinvalid;
      rewrite ?Hcode; unfold_py; simpl;
      destruct (truthy _); split; reflexivity.
  - unfold handed_to_route, response_of, final_session, events, handler_calls.
    simpl decorate. unfold login_autoexchange.
    rewrite run_without_valid_token by exact Hinvalid.
    rewrite Hcode. unfold_py. simpl.
    destruct (route_function _ _ _); destruct (truthy _); repeat split.
Qed.

Lemma no_token_no_code_redirects_to_login_witness :
  let r := run (login_code Scenario.fi Scenario.world Scenario.plain_request
                  Scenario.page [] []) Scenario.expired_session in
  response_of r = Returned (Redirect (AStr (app_login_redirect Scenario.fi))) /\
  handler_calls (events r) = [].
Proof.
  apply (no_token_no_code_redirects_to_login LoginCode Scenario.fi
           Scenario.world Scenario.plain_request Scenario.page [] []
           Scenario.expired_session).
  - right. right. reflexivity.
  - right. reflexivity.
  - reflexivity.
Defined.



(** ** Claims about the route function's turn *)

(** C4. In an [autologin] run, whenever the route function was invoked and
    returned leaving a (truthy) pending-redirect URL under the [rd] key, the
    decorator answers with a redirect to that URL instead of the route's
    result, and the [rd] key is popped from the session. *)
Theorem autologin_pending_redirect_consumed
    (self : FlaskIntegration) (w : World) (request : Request)
    (route_function : handler) (args : list pyval)
    (kwargs : list (string * pyval)) (s : gmap string atom)
    (a : list pyval) (k : list (string * pyval)) (snapshot : gmap string atom)
    (result : response) (s' : gmap string atom) (v : atom) :
  let r := run (autologin self w request route_function args kwargs) s in
  (a, k, snapshot) ∈ handler_calls (events r) ->
  route_function a k snapshot = (Returned result, s') ->
  s' !! session_rd self = Some v ->
  truthy v = true ->
  response_of r = Returned (Redirect v) /\
  final_session r = delete (session_rd self) s' /\
  final_session r !! session_rd self = None /\
  last (events r) = Some (EvSessionPop (session_rd self)).
Proof.
  intros r Hin Hcall Hv Ht.
  destruct (autologin_shape self w request route_function args kwargs s)
    as [Hnone | (tok & st0 & Hr & H0)]; fold r in Hnone || fold r in Hr.
  - rewrite Hnone in Hin. inversion Hin.
  - rewrite Hr, after_route_handler_calls, H0 in Hin. simpl in Hin.
    apply list_elem_of_singleton in Hin. injection Hin as -> -> ->.
    rewrite Hr, (after_route_pending _ _ _ _ _ _ _ _ _ Hcall Hv Ht).
    unfold response_of, final_session, events. simpl.
    repeat split; [apply lookup_delete_eq | apply last_snoc].
Qed.

Lemma autologin_pending_redirect_consumed_witness :
  let r := run (autologin Scenario.fi Scenario.world Scenario.plain_request
                  Scenario.page [] []) Scenario.returning_session in
  response_of r = Returned (Redirect (AStr "/dashboard")) /\
  final_session r
  = delete (session_rd Scenario.fi) Scenario.returning_session /\
  final_session r !! session_rd Scenario.fi = None /\
  last (events r) = Some (EvSessionPop (session_rd Scenario.fi)).
Proof.
  apply (autologin_pending_redirect_consumed Scenario.fi Scenario.world
           Scenario.plain_request Scenario.page [] []
           Scenario.returning_session
           [VAtom (AStr "live")] [] Scenario.returning_session
           (Content "ok") Scenario.returning_session (AStr "/dashboard")).
  - rewrite autologin_stored_token_run by reflexivity.
    rewrite after_route_handler_calls. apply list_elem_of_here.
  - reflexivity.
  - reflexivity.
  - reflexivity.
Defined.

(** C5. [autologout] removes the four session keys before the route
    function runs, whatever the session held and whatever the revoke call
    does; the route function is invoked exactly once, on the cleared
    session, and its outcome is the decorator's. *)
Theorem autologout_clears_then_calls
    (self : FlaskIntegration) (w : World) (request : Request)
    (route_function : handler) (args : list pyval)
    (kwargs : list (string * pyval)) (s : gmap string atom) :
  let r := run (autologout self w request route_function args kwargs) s in
  let cleared :=
    delete (session_rd self)
      (delete (session_refresh self)
         (delete (session_expiry self) (delete (session_token self) s))) in
  handler_calls (events r) = [(args, kwargs, cleared)] /\
  cleared !! session_token self = None /\
  cleared !! session_refresh self = None /\
  cleared !! session_expiry self = None /\
  cleared !! session_rd self = None /\
  (forall key, key <> session_token self -> key <> session_refresh self ->
     key <> session_expiry self -> key <> session_rd self ->
     cleared !! key = s !! key) /\
  response_of r = (route_function args kwargs cleared).1 /\
  final_session r = (route_function args kwargs cleared).2.
Proof.
  intros r cleared.
  assert (r = (let '(o, s') := route_function args kwargs cleared in
                    (o, {| sess := s';
                           trace := trace r.2 |})) /\
               handler_calls (trace r.2) = [(args, kwargs, cleared)])
    as [Hr Hcalls].
  { subst r cleared. unfold autologout. unfold_py. unfold handler_calls. simpl.
    destruct (truthy _); simpl;
      [destruct (revoke_token w _); simpl|];
      destruct (route_function _ _ _); split; reflexivity. }
  unfold response_of, final_session, events. split; [exact Hcalls|].
  subst cleared. rewrite !lookup_delete.
  repeat split; try (repeat case_decide; done).
  - intros key H1 H2 H3 H4. rewrite !lookup_delete_ne by congruence. reflexivity.
  - rewrite Hr at 1. destruct (route_function _ _ _). reflexivity.
  - rewrite Hr at 1. destruct (route_function _ _ _). reflexivity.
Qed.

(** The revoke call of the concrete deployment raises; the logout route
    runs all the same, on a session without the token. *)
Example autologout_survives_failed_revoke :
  let r := run (autologout Scenario.fi Scenario.world Scenario.plain_request
                  Scenario.page [] []) Scenario.expired_session in
  revoke_token Scenario.world (AStr "stale")
  = Raised (ClientError "revoke failed") /\
  omap (fun ev => match ev with EvRevokeToken t => Some t | _ => None end)
    (events r) = [AStr "stale"] /\
  response_of r = Returned (Content "ok") /\
  final_session r !! session_token Scenario.fi = None /\
  length (handler_calls (events r)) = 1%nat.
Proof. vm_compute. repeat split. Qed.

(** C6. A [logged_in] request that does not reach the route function
    because there is no stored token, because the stored token fails the
    validity check, or because the refresh-token exchange raises, stores the
    requested URL under the [rd] key and then answers with a redirect to the
    login URL. *)
Theorem logged_in_records_url_then_redirects
    (self : FlaskIntegration) (w : World) (request : Request)
    (route_function : handler) (args : list pyval)
    (kwargs : list (string * pyval)) (s : gmap string atom) :
  let thetoken := session_lookup s (session_token self) in
  let expiry := session_lookup s (session_expiry self) in
  let refresh := session_lookup s (session_refresh self) in
  truthy thetoken = false \/
  check_token w thetoken = Returned false \/
  (truthy thetoken = true /\ check_token w thetoken = Returned true /\
   truthy expiry = false /\ truthy refresh = true /\
   exists e, client_refresh_token w refresh = Raised e) ->
  let r := run (logged_in self w request route_function args kwargs) s in
  response_of r = Returned (Redirect (AStr (app_login_redirect self))) /\
  final_session r = <[session_rd self := AStr (url request)]> s /\
  final_session r !! session_rd self = Some (AStr (url request)) /\
  handler_calls (events r) = [] /\
  last (events r) = Some (EvSessionSet (session_rd self) (AStr (url request))).
Proof.
  intros thetoken expiry refresh Hcase r.
  assert (r = (Returned (Redirect (AStr (app_login_redirect self))),
               {| sess := <[session_rd self := AStr (url request)]> s;
                  trace := trace r.2 |}) /\
          handler_calls (trace r.2) = [] /\
          last (trace r.2)
          = Some (EvSessionSet (session_rd self) (AStr (url request))))
    as (Hr & Hcalls & Hlast).
  { subst r. unfold logged_in.
    destruct Hcase as [Hno | [Hbad | (Htr & Hok & He & Hr & e & Hraise)]].
    - rewrite run_without_valid_token by (left; exact Hno).
      fold thetoken. rewrite Hno. repeat split.
    - rewrite run_without_valid_token by (right; exact Hbad).
      fold thetoken. destruct (truthy thetoken); repeat split.
    - rewrite run_with_valid_token by assumption.
      unfold_py. simpl. fold expiry refresh. rewrite He, Hr. simpl.
      rewrite Hraise. simpl. repeat split. }
  unfold response_of, final_session, events. rewrite Hr at 1 2 3. simpl.
  repeat split; [apply lookup_insert_eq | exact Hcalls | exact Hlast].
Qed.

Lemma logged_in_records_url_then_redirects_witness :
  let r := run (logged_in Scenario.fi Scenario.world Scenario.plain_request
                  Scenario.page [] []) Scenario.unrefreshable_session in
  response_of r = Returned (Redirect (AStr (app_login_redirect Scenario.fi))) /\
  final_session r
  = <[session_rd Scenario.fi := AStr "/dashboard"]>
      Scenario.unrefreshable_session /\
  final_session r !! session_rd Scenario.fi = Some (AStr "/dashboard") /\
  handler_calls (events r) = [] /\
  last (events r)
  = Some (EvSessionSet (session_rd Scenario.fi) (AStr "/dashboard")).
Proof.
  apply (logged_in_records_url_then_redirects Scenario.fi Scenario.world
           Scenario.plain_request Scenario.page [] []
           Scenario.unrefreshable_session).
  right. right. repeat split; try reflexivity.
  exists (ClientError "invalid refresh token"). reflexivity.
Defined.



(** ** Reconstruction and persistence *)

(** C8. Reconstruction inverts persistence at a fixed clock:
    [_constructAuthToken] puts [expiry - now] into [expires_in], lines
    111-113 store [now + expires_in] as expiry, and reconstructing from the
    three stored fields gives back the access token, the refresh token and
    the same absolute expiry. *)
Theorem construct_after_store_roundtrip
    (self : FlaskIntegration) (w : World) (app : Flask) (cardboard : Cardboard)
    (session_prefix : string) (login_url : option string)
    (tok : AuthToken) (e : Z) (s : gmap string atom) :
  FlaskIntegration_init w app cardboard session_prefix login_url = Returned self ->
  expires_in tok = AInt e ->
  let stored := final_session (run (store_token self w tok) s) in
  let rebuilt :=
    _constructAuthToken self w
      (session_lookup stored (session_token self))
      (session_lookup stored (session_expiry self))
      (session_lookup stored (session_refresh self)) in
  (forall t r (x : Z),
     _constructAuthToken self w t (AInt x) r
     = Returned {| token := t; refresh_token := r;
                   expires_in := AInt (x - time_now w);
                   token_type := AStr "Bearer" |}) /\
  stored !! session_expiry self = Some (AInt (time_now w + e)) /\
  exists tok',
    rebuilt = Returned tok' /\
    token tok' = token tok /\
    refresh_token tok' = refresh_token tok /\
    expires_in tok' = expires_in tok /\
    py_add (AInt (time_now w)) (expires_in tok')
    = Returned (session_lookup stored (session_expiry self)).
Proof.
  intros Hinit He stored rebuilt.
  apply init_keys_wf in Hinit as [Htr Hte Htd Hre Hrd Hed].
  assert (Hs : stored
               = <[session_refresh self := refresh_token tok]>
                   (<[session_expiry self := AInt (time_now w + e)]>
                      (<[session_token self := token tok]> s))).
  { subst stored. unfold run, final_session.
    rewrite (store_token_run _ _ _ e) by exact He. reflexivity. }
  assert (Hexp : stored !! session_expiry self = Some (AInt (time_now w + e))).
  { rewrite Hs, lookup_insert_ne by congruence. apply lookup_insert_eq. }
  assert (Htok : stored !! session_token self = Some (token tok)).
  { rewrite Hs, !lookup_insert_ne by congruence. apply lookup_insert_eq. }
  assert (Href : stored !! session_refresh self = Some (refresh_token tok)).
  { rewrite Hs. apply lookup_insert_eq. }
  split; [intros; apply _constructAuthToken_int|].
  split; [exact Hexp|].
  subst rebuilt. unfold session_lookup. rewrite Hexp, Htok, Href. simpl.
  rewrite _constructAuthToken_int. eexists. split; [reflexivity|]. simpl.
  rewrite He. repeat split; do 2 f_equal; lia.
Qed.

Lemma construct_after_store_roundtrip_witness :
  let stored :=
    final_session (run (store_token Scenario.fi Scenario.world Scenario.fresh) ∅) in
  stored !! session_expiry Scenario.fi = Some (AInt (1700000000 + 3600)) /\
  exists tok',
    _constructAuthToken Scenario.fi Scenario.world
      (session_lookup stored (session_token Scenario.fi))
      (session_lookup stored (session_expiry Scenario.fi))
      (session_lookup stored (session_refresh Scenario.fi))
    = Returned tok' /\
    token tok' = AStr "T" /\
    refresh_token tok' = AStr "R" /\
    expires_in tok' = AInt 3600 /\
    py_add (AInt 1700000000) (expires_in tok')
    = Returned (session_lookup stored (session_expiry Scenario.fi)).
Proof.
  apply (construct_after_store_roundtrip Scenario.fi Scenario.world
           Scenario.app Scenario.client "cardboard_" None Scenario.fresh 3600 ∅);
    reflexivity.
Defined.

(** ** Frame of [logged_in] and the deprecated exchange *)

(** C9. [logged_in] never assigns or pops the token, refresh or expiry
    keys: the only key it writes is [rd]; the route function, when reached,
    starts from the session exactly as the request found it; and a token
    obtained by the refresh-token exchange is handed to the route function
    without any session write. *)
Theorem logged_in_writes_only_rd
    (self : FlaskIntegration) (w : World) (app : Flask) (cardboard : Cardboard)
    (session_prefix : string) (login_url : option string) (request : Request)
    (route_function : handler) (args : list pyval)
    (kwargs : list (string * pyval)) (s : gmap string atom) :
  FlaskIntegration_init w app cardboard session_prefix login_url = Returned self ->
  let r := run (logged_in self w request route_function args kwargs) s in
  Forall (fun key => key = session_rd self) (written_keys (events r)) /\
  (session_rd self <> session_token self /\
   session_rd self <> session_refresh self /\
   session_rd self <> session_expiry self) /\
  (forall a k snapshot,
     (a, k, snapshot) ∈ handler_calls (events r) ->
     snapshot = s /\ written_keys (events r) = [] /\
     final_session r = (route_function a k s).2) /\
  (handler_calls (events r) = [] ->
   final_session r !! session_token self = s !! session_token self /\
   final_session r !! session_refresh self = s !! session_refresh self /\
   final_session r !! session_expiry self = s !! session_expiry self) /\
  (forall new,
     truthy (session_lookup s (session_token self)) = true ->
     check_token w (session_lookup s (session_token self)) = Returned true ->
     truthy (session_lookup s (session_expiry self)) = false ->
     truthy (session_lookup s (session_refresh self)) = true ->
     client_refresh_token w (session_lookup s (session_refresh self)) = Returned new ->
     handler_calls (events r) = [(VAuthToken new :: args, kwargs, s)] /\
     written_keys (events r) = [] /\
     final_session r = (route_function (VAuthToken new :: args) kwargs s).2).
Proof.
  intros Hinit r. apply init_keys_wf in Hinit as [Htr Hte Htd Hre Hrd Hed].
  split; [|split; [auto|split; [|split]]].
  - subst r. unfold logged_in. unfold_py. unfold events. simpl.
    split_run; repeat constructor.
  - intros a k snapshot. subst r. unfold logged_in. unfold_py.
    unfold events, final_session. simpl.
    split_run; intros Hin; try (inversion Hin; fail);
      apply list_elem_of_singleton in Hin; injection Hin as -> -> ->;
      match goal with H : route_function _ _ _ = _ |- _ => rewrite H end;
      repeat split.
  - subst r. unfold logged_in. unfold_py. unfold events, final_session. simpl.
    split_run; intros Hnil;
      try discriminate; simpl; rewrite ?lookup_insert_ne by congruence;
      repeat split.
  - intros new H1 H2 H3 H4 H5. subst r. unfold logged_in.
    rewrite run_with_valid_token by assumption.
    unfold_py. unfold events, final_session. simpl.
    rewrite H3, H4. simpl. rewrite H5. simpl.
    destruct (route_function _ _ _); repeat split.
Qed.

Lemma logged_in_writes_only_rd_witness :
  let s := Scenario.refreshable_session in
  let r := run (logged_in Scenario.fi Scenario.world Scenario.plain_request
                  Scenario.page [] []) s in
  Forall (fun key => key = session_rd Scenario.fi) (written_keys (events r)) /\
  handler_calls (events r) = [([VAuthToken Scenario.fresh], [], s)] /\
  written_keys (events r) = [] /\
  final_session r = (Scenario.page [VAuthToken Scenario.fresh] [] s).2.
Proof.
  destruct (logged_in_writes_only_rd Scenario.fi Scenario.world Scenario.app
              Scenario.client "cardboard_" None Scenario.plain_request
              Scenario.page [] [] Scenario.refreshable_session)
    as (Hw & _ & _ & _ & Hnew).
  - reflexivity.
  - split; [exact Hw|]. apply (Hnew Scenario.fresh); reflexivity.
Defined.

(** C10 does not hold as stated: [login_autoexchange] does not always
    invoke the route function.  Lines 187-195 are not guarded, so when the
    POST raises, or a 200 answer carries an object without the token fields,
    the exception leaves the decorator and the route function is never
    called. *)
Lemma login_autoexchange_exchange_error_skips_route :
  let r := run (login_autoexchange Scenario.fi Fixtures.offline_world
                  Scenario.code_request Scenario.page [] []) ∅ in
  let r' := run (login_autoexchange Scenario.fi Fixtures.hollow_world
                   Scenario.code_request Scenario.page [] []) ∅ in
  session_lookup ∅ (session_token Scenario.fi) = ANone /\
  (response_of r = Raised (ClientError "connection refused") /\
   handler_calls (events r) = []) /\
  (response_of r' = Raised (KeyError "access_token") /\
   handler_calls (events r') = []).
Proof. vm_compute. repeat split. Qed.

(** C10, amended. Without a valid stored token [login_autoexchange] never
    redirects and writes no session key: whatever response it returns is the
    route function's.  The route function is invoked with [None] when there
    is no code, when the exchange answers with a non-200 status, or when a
    200 answer has an integer as JSON body, and with the new [AuthToken] when
    the exchange succeeds.  When the exchange itself raises (the POST, the
    JSON parsing of a 200 answer, or the construction of the [AuthToken]),
    the exception is the outcome, the route function is not invoked and the
    session is left as it was. *)
Theorem login_autoexchange_calls_route_unless_exchange_raises
    (self : FlaskIntegration) (w : World) (request : Request)
    (route_function : handler) (args : list pyval)
    (kwargs : list (string * pyval)) (s : gmap string atom) :
  let thetoken := session_lookup s (session_token self) in
  let code := args_code request in
  let posted :=
    http_post w (token_endpoint self)
      (exchange_data self (code_string code)) exchange_headers in
  let r := run (login_autoexchange self w request route_function args kwargs) s in
  truthy thetoken = false \/ check_token w thetoken = Returned false ->
  (forall x, response_of r = Returned x ->
     exists tok, handed_to_route r route_function tok args kwargs s) /\
  written_keys (events r) = [] /\
  (code_truthy code = false ->
     handed_to_route r route_function (VAtom ANone) args kwargs s) /\
  (forall resp,
     code_truthy code = true -> posted = Returned resp -> status resp <> 200 ->
     handed_to_route r route_function (VAtom ANone) args kwargs s) /\
  (forall resp n,
     code_truthy code = true -> posted = Returned resp -> status resp = 200 ->
     response_json resp = Returned (JInt n) ->
     handed_to_route r route_function (VAtom ANone) args kwargs s) /\
  (forall resp d tok,
     code_truthy code = true -> posted = Returned resp -> status resp = 200 ->
     response_json resp = Returned (JObj d) -> AuthToken_init d = Returned tok ->
     handed_to_route r route_function (VAuthToken tok) args kwargs s) /\
  (forall e,
     code_truthy code = true ->
     posted = Raised e \/
     (exists resp,
        posted = Returned resp /\ status resp = 200 /\
        response_json resp = Raised e) \/
     (exists resp body,
        posted = Returned resp /\ status resp = 200 /\
        response_json resp = Returned body /\ (forall n, body <> JInt n) /\
        AuthToken_of_json body = Raised e) ->
     response_of r = Raised e /\
     handler_calls (events r) = [] /\
     final_session r = s).
Proof.
  intros thetoken code posted r Hinvalid.
  eassert (Hr : r = _).
  { subst r. unfold login_autoexchange.
    rewrite run_without_valid_token by exact Hinvalid.
    fold thetoken code. reflexivity. }
  clearbody r. subst r. unfold handed_to_route.
  unfold response_of, final_session, events, handler_calls, written_keys.
  split; [|split; [|split; [|split; [|split; [|split]]]]].
  - intros x. unfold_py. simpl. fold posted.
    split_run; intros Hx; simplify_eq;
      eexists; rewrite ?omap_app; simpl;
      match goal with H : route_function _ _ _ = _ |- _ => rewrite H end;
      repeat split; simpl; reflexivity.
  - unfold_py. simpl. fold posted.
    split_run; rewrite ?omap_app; reflexivity.
  - intros Hc. rewrite Hc. unfold_py. simpl.
    destruct (route_function _ _ _); destruct (truthy thetoken); repeat split.
  - intros resp Hc Hp Hs. rewrite Hc. unfold_py. simpl. fold posted.
    rewrite Hp. apply Z.eqb_neq in Hs. rewrite Hs. simpl.
    destruct (route_function _ _ _); destruct (truthy thetoken); repeat split.
  - intros resp n Hc Hp Hs Hj. rewrite Hc. unfold_py. simpl. fold posted.
    rewrite Hp, Hs, Hj. simpl.
    destruct (route_function _ _ _); destruct (truthy thetoken); repeat split.
  - intros resp d tok Hc Hp Hs Hj Ht. rewrite Hc. unfold_py. simpl. fold posted.
    rewrite Hp, Hs, Hj. simpl. rewrite Ht. simpl.
    destruct (route_function _ _ _); destruct (truthy thetoken); repeat split.
  - intros e Hc Hraise. rewrite Hc. unfold_py. simpl. fold posted.
    destruct Hraise as [Hp | [(resp & Hp & Hs & Hj)
                             | (resp & body & Hp & Hs & Hj & Hn & Ht)]];
      rewrite Hp, ?Hs; simpl; rewrite ?Hj; simpl.
    + rewrite ?omap_app. destruct (truthy thetoken); repeat split.
    + rewrite ?omap_app. destruct (truthy thetoken); repeat split.
    + destruct body as [|b|n|x|t|items|d];
        try (exfalso; exact (Hn n eq_refl));
        simpl in Ht |- *; rewrite ?Ht; simplify_eq; simpl;
        rewrite ?omap_app; destruct (truthy thetoken); repeat split.
Qed.

Lemma login_autoexchange_calls_route_unless_exchange_raises_witness :
  handed_to_route
    (run (login_autoexchange Scenario.fi Scenario.world Scenario.bad_code_request
            Scenario.page [] []) ∅)
    Scenario.page (VAtom ANone) [] [] ∅ /\
  handed_to_route
    (run (login_autoexchange Scenario.fi Scenario.world Scenario.code_request
            Scenario.page [] []) ∅)
    Scenario.page (VAuthToken Scenario.exchanged) [] [] ∅ /\
  (let r := run (login_autoexchange Scenario.fi Fixtures.offline_world
                   Scenario.code_request Scenario.page [] []) ∅ in
   response_of r = Raised (ClientError "connection refused") /\
   handler_calls (events r) = [] /\
   final_session r = ∅).
Proof.
  split; [|split].
  - destruct (login_autoexchange_calls_route_unless_exchange_raises
                Scenario.fi Scenario.world
                Scenario.bad_code_request Scenario.page [] [] ∅)
      as (_ & _ & _ & Hbad & _); [left; reflexivity|].
    apply (Hbad {| status := 400;
                   response_json := Raised (ValueError "no body") |});
      [reflexivity | reflexivity | discriminate].
  - destruct (login_autoexchange_calls_route_unless_exchange_raises
                Scenario.fi Scenario.world
                Scenario.code_request Scenario.page [] [] ∅)
      as (_ & _ & _ & _ & _ & Hgood & _); [left; reflexivity|].
    apply (Hgood {| status := 200;
                    response_json := Returned (JObj Scenario.token_body) |}
             Scenario.token_body);
      reflexivity.
  - destruct (login_autoexchange_calls_route_unless_exchange_raises
                Scenario.fi Fixtures.offline_world
                Scenario.code_request Scenario.page [] [] ∅)
      as (_ & _ & _ & _ & _ & _ & Hraise); [left; reflexivity|].
    apply Hraise; [reflexivity | left; reflexivity].
Defined.

(** * Further properties of the module *)

(** ** Equations used below *)

Lemma after_route_post_calls self route_function tok args kwargs st :
  post_calls (events (after_route self route_function tok args kwargs st))
  = post_calls (trace st).
Proof.
  unfold after_route, post_calls, events.
  split_run; rewrite ?omap_app; simpl; rewrite ?app_nil_r; reflexivity.
Qed.

Lemma after_route_check_calls self route_function tok args kwargs st :
  check_calls (events (after_route self route_function tok args kwargs st))
  = check_calls (trace st).
Proof.
  unfold after_route, check_calls, events.
  split_run; rewrite ?omap_app; simpl; rewrite ?app_nil_r; reflexivity.
Qed.

(** Without a truthy [rd] entry the route's result and session stand. *)
Lemma after_route_no_pending self route_function tok args kwargs st result s' :
  route_function (tok :: args) kwargs (sess st) = (Returned result, s') ->
  truthy (session_lookup s' (session_rd self)) = false ->
  after_route self route_function tok args kwargs st
  = (Returned result,
     {| sess := s';
        trace := trace st ++ [EvHandler (tok :: args) kwargs (sess st)] |}).
Proof.
  intros Hr Hv. unfold after_route. rewrite Hr.
  unfold session_lookup in Hv.
  destruct (s' !! session_rd self) as [a|]; simpl in Hv; [rewrite Hv|];
    reflexivity.
Qed.

(** The state in which [autologin] enters lines 114-118 after a successful
    code exchange. *)
Lemma autologin_exchange_run self w request route_function args kwargs s
    code resp d tok (e : Z) :
  let thetoken := session_lookup s (session_token self) in
  truthy thetoken = false \/ check_token w thetoken = Returned false ->
  args_code request = Some code ->
  code <> "" ->
  http_post w (token_endpoint self) (exchange_data self code) exchange_headers
  = Returned resp ->
  status resp = 200 ->
  response_json resp = Returned (JObj d) ->
  AuthToken_init d = Returned tok ->
  expires_in tok = AInt e ->
  run (autologin self w request route_function args kwargs) s
  = after_route self route_function (VAuthToken tok) args kwargs
      {| sess :=
           <[session_refresh self := refresh_token tok]>
             (<[session_expiry self := AInt (time_now w + e)]>
                (<[session_token self := token tok]> s));
         trace :=
           ((if truthy thetoken then [EvCheckToken thetoken] else []) ++
            [EvPost (token_endpoint self) (exchange_data self code)
               exchange_headers]) ++
           [EvSessionSet (session_token self) (token tok);
            EvSessionSet (session_expiry self) (AInt (time_now w + e));
            EvSessionSet (session_refresh self) (refresh_token tok)] |}.
Proof.
  intros thetoken Hinvalid Hcode Hne Hp Hs Hj Ht He.
  assert (Hc : code_truthy (Some code) = true).
  { simpl. apply negb_true_iff, String.eqb_neq. exact Hne. }
  unfold autologin. rewrite run_without_valid_token by exact Hinvalid.
  fold thetoken. rewrite Hcode, Hc. simpl code_string.
  unfold bind at 1. unfold asyncpost. rewrite Hp, Hs. simpl. rewrite Hj.
  unfold bind at 1. unfold lift at 1. simpl. rewrite Ht.
  unfold bind at 1. rewrite (store_token_run _ _ _ e) by exact He.
  apply route_then_pending_redirect_eq.
Qed.

(** ** The constructor *)

(** X1. Whatever the prefix, [__init__] names the four session keys
    [prefix + "token"], ["refresh"], ["expiry"], ["rd"], and no two of them
    coincide. *)
Theorem init_session_keys_distinct
    (w : World) (app : Flask) (cardboard : Cardboard)
    (session_prefix : string) (login_url : option string)
    (self : FlaskIntegration) :
  FlaskIntegration_init w app cardboard session_prefix login_url = Returned self ->
  session_token self = session_prefix +:+ "token" /\
  session_refresh self = session_prefix +:+ "refresh" /\
  session_expiry self = session_prefix +:+ "expiry" /\
  session_rd self = session_prefix +:+ "rd" /\
  NoDup [session_token self; session_refresh self; session_expiry self;
         session_rd self].
Proof.
  intros H. pose proof (init_keys_wf _ _ _ _ _ _ H) as [H1 H2 H3 H4 H5 H6].
  apply init_fields in H as (Ht & Hr & He & Hd & _).
  repeat split; try assumption.
  repeat (apply NoDup_cons; split); try apply NoDup_nil;
    rewrite ?not_elem_of_cons; repeat split;
    solve [congruence | apply not_elem_of_nil].
Qed.

Lemma init_session_keys_distinct_witness :
  session_token Scenario.fi = "cardboard_" +:+ "token" /\
  session_refresh Scenario.fi = "cardboard_" +:+ "refresh" /\
  session_expiry Scenario.fi = "cardboard_" +:+ "expiry" /\
  session_rd Scenario.fi = "cardboard_" +:+ "rd" /\
  NoDup [session_token Scenario.fi; session_refresh Scenario.fi;
         session_expiry Scenario.fi; session_rd Scenario.fi].
Proof.
  apply (init_session_keys_distinct Scenario.world Scenario.app Scenario.client
           "cardboard_" None Scenario.fi).
  reflexivity.
Defined.

(** X2. [__init__] fails, with a [ValueError], exactly when the Flask app
    has no secret key or an empty one.  When it succeeds, the credentials are
    those of the client passed in, while the client it keeps is a new one
    built from them, and the login redirect is the given [login_url] if that
    is a non-empty string and the new client's [app_url] otherwise. *)
Theorem init_fails_fast_without_secret_key
    (w : World) (app : Flask) (cardboard : Cardboard)
    (session_prefix : string) (login_url : option string) :
  let made := FlaskIntegration_init w app cardboard session_prefix login_url in
  let fresh_client := CardboardAsync w (client_id cardboard) (secret cardboard) in
  (secret_key app = None \/ secret_key app = Some "" ->
   made = Raised (ValueError "Flask app secret key is not set or is empty.")) /\
  (forall key, secret_key app = Some key -> key <> "" ->
   exists self,
     made = Returned self /\
     cb self = fresh_client /\
     fi_client_id self = client_id cardboard /\
     fi_secret self = secret cardboard /\
     (login_url = None \/ login_url = Some "" ->
      app_login_redirect self = app_url fresh_client) /\
     (forall target, login_url = Some target -> target <> "" ->
      app_login_redirect self = target)).
Proof.
  intros made fresh_client. subst made. unfold FlaskIntegration_init. split.
  - intros [-> | ->]; reflexivity.
  - intros key -> Hne. apply String.eqb_neq in Hne. rewrite Hne.
    eexists. split; [reflexivity|]. simpl. repeat split.
    + intros [-> | ->]; reflexivity.
    + intros target -> Ht. apply String.eqb_neq in Ht. rewrite Ht. reflexivity.
Qed.

Lemma init_fails_fast_without_secret_key_witness :
  FlaskIntegration_init Scenario.world {| secret_key := Some "" |}
    Scenario.client "cardboard_" (Some "https://shop.example/login")
  = Raised (ValueError "Flask app secret key is not set or is empty.") /\
  exists self,
    FlaskIntegration_init Scenario.world Scenario.app Scenario.client
      "cardboard_" (Some "https://shop.example/login")
    = Returned self /\
    app_login_redirect self = "https://shop.example/login".
Proof.
  split.
  - apply (init_fails_fast_without_secret_key Scenario.world
             {| secret_key := Some "" |} Scenario.client "cardboard_"
             (Some "https://shop.example/login")).
    right. reflexivity.
  - destruct (init_fails_fast_without_secret_key Scenario.world Scenario.app
                Scenario.client "cardboard_"
                (Some "https://shop.example/login")) as [_ Hok].
    destruct (Hok "flask-secret" eq_refl) as (self & Hm & _ & _ & _ & _ & Hurl);
      [discriminate|].
    exists self. split; [exact Hm|]. apply (Hurl _ eq_refl). discriminate.
Defined.

(** ** [login_code] *)

(** X3. With a valid stored token [login_code] invokes the route function
    with [None], also when the request carries a code; the code is not
    looked at and nothing is posted or written. *)
Theorem login_code_valid_token_passes_none
    (self : FlaskIntegration) (w : World) (request : Request)
    (route_function : handler) (args : list pyval)
    (kwargs : list (string * pyval)) (s : gmap string atom) :
  let thetoken := session_lookup s (session_token self) in
  truthy thetoken = true ->
  check_token w thetoken = Returned true ->
  let r := run (login_code self w request route_function args kwargs) s in
  handed_to_route r route_function (VAtom ANone) args kwargs s /\
  post_calls (events r) = [] /\
  written_keys (events r) = [].
Proof.
  intros thetoken H1 H2 r. subst r. unfold login_code.
  rewrite run_with_valid_token by assumption.
  unfold handed_to_route, response_of, final_session, events, handler_calls,
    post_calls, written_keys, call_route. simpl.
  destruct (route_function _ _ _). repeat split.
Qed.

Lemma login_code_valid_token_passes_none_witness :
  let r := run (login_code Scenario.fi Scenario.world Scenario.code_request
                  Scenario.page [] []) Scenario.live_session in
  handed_to_route r Scenario.page (VAtom ANone) [] [] Scenario.live_session /\
  post_calls (events r) = [] /\
  written_keys (events r) = [].
Proof.
  apply (login_code_valid_token_passes_none Scenario.fi Scenario.world
           Scenario.code_request Scenario.page [] [] Scenario.live_session);
    reflexivity.
Defined.

(** X4. Without a valid stored token [login_code] hands the code of the
    query string to the route function as it came: no exchange, no refresh,
    no session write, whatever the identity service would say of that
    code. *)
Theorem login_code_passes_code_unvalidated
    (self : FlaskIntegration) (w : World) (request : Request)
    (route_function : handler) (args : list pyval)
    (kwargs : list (string * pyval)) (s : gmap string atom) (code : string) :
  let thetoken := session_lookup s (session_token self) in
  truthy thetoken = false \/ check_token w thetoken = Returned false ->
  args_code request = Some code ->
  code <> "" ->
  let r := run (login_code self w request route_function args kwargs) s in
  handed_to_route r route_function (VAtom (AStr code)) args kwargs s /\
  post_calls (events r) = [] /\
  refresh_calls (events r) = [] /\
  written_keys (events r) = [].
Proof.
  intros thetoken Hinvalid Hcode Hne r. subst r. unfold login_code.
  rewrite run_without_valid_token by exact Hinvalid. fold thetoken.
  rewrite Hcode. simpl. apply String.eqb_neq in Hne. rewrite Hne. simpl.
  unfold handed_to_route, response_of, final_session, events, handler_calls,
    post_calls, refresh_calls, written_keys, call_route. simpl.
  destruct (route_function _ _ _); destruct (truthy thetoken); repeat split.
Qed.

Lemma login_code_passes_code_unvalidated_witness :
  let r := run (login_code Scenario.fi Scenario.world Scenario.bad_code_request
                  Scenario.page [] []) ∅ in
  handed_to_route r Scenario.page (VAtom (AStr "nope")) [] [] ∅ /\
  post_calls (events r) = [] /\
  refresh_calls (events r) = [] /\
  written_keys (events r) = [].
Proof.
  apply (login_code_passes_code_unvalidated Scenario.fi Scenario.world
           Scenario.bad_code_request Scenario.page [] [] ∅ "nope").
  - left. reflexivity.
  - reflexivity.
  - discriminate.
Defined.

(** ** Failure paths of [autologin] *)

(** X5. When the code exchange of [autologin] is answered with a status
    other than 200 (whatever the body), or with a 200 whose JSON body is an
    integer (the one kind of body for which [type(response) == int] holds),
    the decorator redirects to the login URL: the route function is not
    invoked and the session is left as it was. *)
Theorem autologin_exchange_failure_redirects
    (self : FlaskIntegration) (w : World) (request : Request)
    (route_function : handler) (args : list pyval)
    (kwargs : list (string * pyval)) (s : gmap string atom)
    (code : string) (resp : HttpResponse) :
  let thetoken := session_lookup s (session_token self) in
  truthy thetoken = false \/ check_token w thetoken = Returned false ->
  args_code request = Some code ->
  code <> "" ->
  http_post w (token_endpoint self) (exchange_data self code) exchange_headers
  = Returned resp ->
  status resp <> 200 \/
  (exists n, response_json resp = Returned (JInt n)) ->
  let r := run (autologin self w request route_function args kwargs) s in
  response_of r = Returned (Redirect (AStr (app_login_redirect self))) /\
  handler_calls (events r) = [] /\
  written_keys (events r) = [] /\
  final_session r = s /\
  post_calls (events r)
  = [(token_endpoint self, exchange_data self code, exchange_headers)].
Proof.
  intros thetoken Hinvalid Hcode Hne Hp Hfail r. subst r. unfold autologin.
  assert (Hc : code_truthy (Some code) = true).
  { simpl. apply negb_true_iff, String.eqb_neq. exact Hne. }
  rewrite run_without_valid_token by exact Hinvalid. fold thetoken.
  rewrite Hcode, Hc. simpl code_string.
  unfold bind, asyncpost, ret, log. rewrite Hp.
  unfold response_of, final_session, events, handler_calls, written_keys,
    post_calls.
  destruct (status resp =? 200) eqn:Hs.
  - destruct Hfail as [Hfail | [n Hn]]; [apply Z.eqb_eq in Hs; contradiction|].
    rewrite Hn. simpl. rewrite !omap_app. simpl.
    destruct (truthy thetoken); repeat split.
  - simpl. rewrite !omap_app. simpl.
    destruct (truthy thetoken); repeat split.
Qed.

Lemma autologin_exchange_failure_redirects_witness :
  let r := run (autologin Scenario.fi Scenario.world Scenario.bad_code_request
                  Scenario.page [] []) ∅ in
  response_of r = Returned (Redirect (AStr (app_login_redirect Scenario.fi))) /\
  handler_calls (events r) = [] /\
  written_keys (events r) = [] /\
  final_session r = ∅ /\
  post_calls (events r)
  = [(token_endpoint Scenario.fi, exchange_data Scenario.fi "nope",
      exchange_headers)].
Proof.
  apply (autologin_exchange_failure_redirects Scenario.fi Scenario.world
           Scenario.bad_code_request Scenario.page [] [] ∅ "nope"
           {| status := 400; response_json := Raised (ValueError "no body") |}).
  - left. reflexivity.
  - reflexivity.
  - discriminate.
  - reflexivity.
  - left. discriminate.
Defined.

(** A 200 answer whose body is the float [1.5] is not an [int] on line 106:
    no redirect is made, [AuthToken(response)] runs on the float and its
    [TypeError] is the outcome. *)
Example autologin_float_body_is_not_an_int :
  let r := run (autologin Scenario.fi Fixtures.float_world Scenario.code_request
                  Scenario.page [] []) ∅ in
  response_of r = Raised TypeError /\
  handler_calls (events r) = [] /\
  written_keys (events r) = [].
Proof. vm_compute. repeat split. Qed.

(** X6. When the refresh-token exchange of [autologin] raises, the
    decorator redirects to the login URL without invoking the route function
    and, unlike [logged_in], without recording the requested URL: the
    session is left as it was. *)
Theorem autologin_refresh_failure_redirects
    (self : FlaskIntegration) (w : World) (request : Request)
    (route_function : handler) (args : list pyval)
    (kwargs : list (string * pyval)) (s : gmap string atom) (e : exn) :
  let thetoken := session_lookup s (session_token self) in
  let expiry := session_lookup s (session_expiry self) in
  let refresh := session_lookup s (session_refresh self) in
  truthy thetoken = true ->
  check_token w thetoken = Returned true ->
  truthy expiry = false ->
  truthy refresh = true ->
  client_refresh_token w refresh = Raised e ->
  let r := run (autologin self w request route_function args kwargs) s in
  response_of r = Returned (Redirect (AStr (app_login_redirect self))) /\
  handler_calls (events r) = [] /\
  written_keys (events r) = [] /\
  final_session r = s /\
  post_calls (events r) = [].
Proof.
  intros thetoken expiry refresh H1 H2 H3 H4 H5 r. subst r. unfold autologin.
  rewrite run_with_valid_token by assumption.
  unfold_py. simpl. fold expiry refresh. rewrite H3, H4. simpl. rewrite H5.
  repeat split.
Qed.

Lemma autologin_refresh_failure_redirects_witness :
  let r := run (autologin Scenario.fi Scenario.world Scenario.code_request
                  Scenario.page [] []) Scenario.unrefreshable_session in
  response_of r = Returned (Redirect (AStr (app_login_redirect Scenario.fi))) /\
  handler_calls (events r) = [] /\
  written_keys (events r) = [] /\
  final_session r = Scenario.unrefreshable_session /\
  post_calls (events r) = [].
Proof.
  apply (autologin_refresh_failure_redirects Scenario.fi Scenario.world
           Scenario.code_request Scenario.page [] []
           Scenario.unrefreshable_session
           (ClientError "invalid refresh token"));
    reflexivity.
Defined.

(** ** Requests with a valid stored token *)

(** The runs of [autologin] and [logged_in] on a session that holds a valid
    token, an integer expiry other than [0] and a refresh token. *)
Lemma autologin_rebuild_run self w request route_function args kwargs s (x : Z) :
  let thetoken := session_lookup s (session_token self) in
  let refresh := session_lookup s (session_refresh self) in
  truthy thetoken = true ->
  check_token w thetoken = Returned true ->
  session_lookup s (session_expiry self) = AInt x ->
  x <> 0 ->
  truthy refresh = true ->
  run (autologin self w request route_function args kwargs) s
  = after_route self route_function
      (VAuthToken {| token := thetoken; refresh_token := refresh;
                     expires_in := AInt (x - time_now w);
                     token_type := AStr "Bearer" |})
      args kwargs {| sess := s; trace := [EvCheckToken thetoken] |}.
Proof.
  intros thetoken refresh H1 H2 H3 Hx H4.
  assert (Hxt : truthy (AInt x) = true).
  { simpl. apply negb_true_iff, Z.eqb_neq. exact Hx. }
  unfold autologin. rewrite run_with_valid_token by assumption. fold thetoken.
  unfold bind at 1. unfold session_get at 1. simpl.
  unfold bind at 1. unfold session_get at 1. simpl.
  rewrite H3, Hxt. fold refresh. rewrite H4. simpl.
  unfold bind, lift. rewrite _constructAuthToken_int.
  apply route_then_pending_redirect_eq.
Qed.

Lemma logged_in_rebuild_run self w request route_function args kwargs s (x : Z) :
  let thetoken := session_lookup s (session_token self) in
  let refresh := session_lookup s (session_refresh self) in
  truthy thetoken = true ->
  check_token w thetoken = Returned true ->
  session_lookup s (session_expiry self) = AInt x ->
  x <> 0 ->
  truthy refresh = true ->
  run (logged_in self w request route_function args kwargs) s
  = call_route route_function
      (VAuthToken {| token := thetoken; refresh_token := refresh;
                     expires_in := AInt (x - time_now w);
                     token_type := AStr "Bearer" |} :: args)
      kwargs {| sess := s; trace := [EvCheckToken thetoken] |}.
Proof.
  intros thetoken refresh H1 H2 H3 Hx H4.
  assert (Hxt : truthy (AInt x) = true).
  { simpl. apply negb_true_iff, Z.eqb_neq. exact Hx. }
  unfold logged_in. rewrite run_with_valid_token by assumption. fold thetoken.
  unfold bind at 1. unfold session_get at 1. simpl. fold thetoken.
  unfold bind at 1. unfold session_get at 1. simpl.
  unfold bind at 1. unfold session_get at 1. simpl.
  rewrite H3, Hxt. fold refresh. rewrite H4. simpl.
  unfold bind, lift. rewrite _constructAuthToken_int. reflexivity.
Qed.

Lemma call_route_calls route_function a kwargs st :
  handler_calls (events (call_route route_function a kwargs st))
  = handler_calls (trace st) ++ [(a, kwargs, sess st)] /\
  refresh_calls (events (call_route route_function a kwargs st))
  = refresh_calls (trace st) /\
  post_calls (events (call_route route_function a kwargs st))
  = post_calls (trace st).
Proof.
  unfold call_route, events, handler_calls, refresh_calls, post_calls.
  destruct (route_function _ _ _). simpl. rewrite !omap_app. simpl.
  rewrite !app_nil_r. repeat split.
Qed.

(** X7. When the session holds a valid token together with an expiry and a
    refresh token, [autologin] and [logged_in] rebuild the [AuthToken] from
    the three stored fields, with the seconds left on the clock, and hand it
    to the route function on the unchanged session; neither the refresh
    endpoint nor the token endpoint is called. *)
Theorem stored_fields_rebuild_token
    (dec : decorator) (self : FlaskIntegration) (w : World) (request : Request)
    (route_function : handler) (args : list pyval)
    (kwargs : list (string * pyval)) (s : gmap string atom) (x : Z) :
  dec = Autologin \/ dec = LoggedIn ->
  let thetoken := session_lookup s (session_token self) in
  let refresh := session_lookup s (session_refresh self) in
  truthy thetoken = true ->
  check_token w thetoken = Returned true ->
  session_lookup s (session_expiry self) = AInt x ->
  x <> 0 ->
  truthy refresh = true ->
  let r := run (decorate dec self w request route_function args kwargs) s in
  handler_calls (events r)
  = [(VAuthToken {| token := thetoken; refresh_token := refresh;
                    expires_in := AInt (x - time_now w);
                    token_type := AStr "Bearer" |} :: args, kwargs, s)] /\
  refresh_calls (events r) = [] /\
  post_calls (events r) = [].
Proof.
  intros Hdec thetoken refresh H1 H2 H3 Hx H4 r. subst r.
  destruct Hdec as [-> | ->]; simpl decorate.
  - rewrite (autologin_rebuild_run _ _ _ _ _ _ _ x) by assumption.
    rewrite after_route_handler_calls, after_route_refresh_calls,
      after_route_post_calls.
    repeat split.
  - rewrite (logged_in_rebuild_run _ _ _ _ _ _ _ x) by assumption.
    rewrite (proj1 (call_route_calls _ _ _ _)),
      (proj1 (proj2 (call_route_calls _ _ _ _))),
      (proj2 (proj2 (call_route_calls _ _ _ _))).
    repeat split.
Qed.

Lemma stored_fields_rebuild_token_witness :
  let r := run (logged_in Scenario.fi Scenario.world Scenario.plain_request
                  Scenario.page [] []) Fixtures.full_session in
  handler_calls (events r)
  = [([VAuthToken {| token := AStr "live"; refresh_token := AStr "R0";
                     expires_in := AInt (1700003600 - 1700000000);
                     token_type := AStr "Bearer" |}], [],
      Fixtures.full_session)] /\
  refresh_calls (events r) = [] /\
  post_calls (events r) = [].
Proof.
  apply (stored_fields_rebuild_token LoggedIn Scenario.fi Scenario.world
           Scenario.plain_request Scenario.page [] [] Fixtures.full_session
           1700003600);
    try reflexivity.
  - right. reflexivity.
  - discriminate.
Defined.

(** X8. A valid stored token settles the request: [autologin],
    [login_code], [login_autoexchange] and [logged_in] make the validity
    check once and post nothing to the token endpoint, even when the request
    carries a code. *)
Theorem valid_token_skips_exchange
    (dec : decorator) (self : FlaskIntegration) (w : World) (request : Request)
    (route_function : handler) (args : list pyval)
    (kwargs : list (string * pyval)) (s : gmap string atom) :
  dec <> Autologout ->
  let thetoken := session_lookup s (session_token self) in
  truthy thetoken = true ->
  check_token w thetoken = Returned true ->
  let r := run (decorate dec self w request route_function args kwargs) s in
  post_calls (events r) = [] /\
  check_calls (events r) = [thetoken].
Proof.
  intros Hdec thetoken H1 H2 r. subst r.
  pose proof after_route_post_calls as Hpost.
  pose proof after_route_check_calls as Hcheck.
  unfold events, post_calls in Hpost. unfold events, check_calls in Hcheck.
  unfold events, post_calls, check_calls.
  destruct dec; try contradiction; simpl decorate;
    [unfold autologin | unfold login_code | unfold login_autoexchange
     | unfold logged_in];
    rewrite run_with_valid_token by assumption; fold thetoken;
    unfold_py; simpl;
    repeat (case_match; simpl in *; simplify_eq;
            rewrite ?route_then_pending_redirect_eq, ?Hpost, ?Hcheck);
    split; reflexivity.
Qed.

Lemma valid_token_skips_exchange_witness :
  let r := run (autologin Scenario.fi Scenario.world Scenario.code_request
                  Scenario.page [] []) Scenario.live_session in
  post_calls (events r) = [] /\
  check_calls (events r) = [AStr "live"].
Proof.
  apply (valid_token_skips_exchange Autologin Scenario.fi Scenario.world
           Scenario.code_request Scenario.page [] [] Scenario.live_session);
    [discriminate | reflexivity | reflexivity].
Defined.

(** X9. With a valid stored token [login_autoexchange] hands the route
    function the stored token value itself, never an [AuthToken] rebuilt or
    refreshed from the other session fields, and its response is the
    route's. *)
Theorem login_autoexchange_valid_token_passes_raw
    (self : FlaskIntegration) (w : World) (request : Request)
    (route_function : handler) (args : list pyval)
    (kwargs : list (string * pyval)) (s : gmap string atom) :
  let thetoken := session_lookup s (session_token self) in
  truthy thetoken = true ->
  check_token w thetoken = Returned true ->
  let r := run (login_autoexchange self w request route_function args kwargs) s in
  handed_to_route r route_function (VAtom thetoken) args kwargs s /\
  refresh_calls (events r) = [] /\
  written_keys (events r) = [].
Proof.
  intros thetoken H1 H2 r. subst r. unfold login_autoexchange.
  rewrite run_with_valid_token by assumption. fold thetoken.
  unfold handed_to_route, response_of, final_session, events, handler_calls,
    refresh_calls, written_keys, call_route. simpl.
  destruct (route_function _ _ _). repeat split.
Qed.

Lemma login_autoexchange_valid_token_passes_raw_witness :
  let r := run (login_autoexchange Scenario.fi Scenario.world
                  Scenario.code_request Scenario.page [] [])
             Fixtures.full_session in
  handed_to_route r Scenario.page (VAtom (AStr "live")) [] []
    Fixtures.full_session /\
  refresh_calls (events r) = [] /\
  written_keys (events r) = [].
Proof.
  apply (login_autoexchange_valid_token_passes_raw Scenario.fi Scenario.world
           Scenario.code_request Scenario.page [] [] Fixtures.full_session);
    reflexivity.
Defined.

(** ** [autologout] *)

(** X10. [autologout] pops the token, expiry, refresh and rd keys in that
    order, then asks for the revocation of the popped token exactly when it
    was truthy, then invokes the route function; it never checks the token
    and never posts.  A session without a token is logged out without any
    call to the identity service. *)
Theorem autologout_event_order
    (self : FlaskIntegration) (w : World) (request : Request)
    (route_function : handler) (args : list pyval)
    (kwargs : list (string * pyval)) (s : gmap string atom) :
  let ot := session_lookup s (session_token self) in
  let cleared :=
    delete (session_rd self)
      (delete (session_refresh self)
         (delete (session_expiry self) (delete (session_token self) s))) in
  let r := run (autologout self w request route_function args kwargs) s in
  events r
  = [EvSessionPop (session_token self); EvSessionPop (session_expiry self);
     EvSessionPop (session_refresh self); EvSessionPop (session_rd self)]
    ++ (if truthy ot then [EvRevokeToken ot] else [])
    ++ [EvHandler args kwargs cleared].
Proof.
  intros ot cleared r. subst r cleared. unfold autologout. unfold_py.
  unfold events. simpl. fold ot.
  destruct (truthy ot); simpl;
    [destruct (revoke_token w ot); simpl|];
    destruct (route_function _ _ _); reflexivity.
Qed.

(** ** What the route function receives *)

(** X11. Whatever the request, a decorator invokes the route function at
    most once, and always with the caller's positional and keyword
    arguments: behind one injected first argument, or as they are for
    [autologout]. *)
Theorem route_called_at_most_once_with_callers_arguments
    (dec : decorator) (self : FlaskIntegration) (w : World) (request : Request)
    (route_function : handler) (args : list pyval)
    (kwargs : list (string * pyval)) (s : gmap string atom) :
  let r := run (decorate dec self w request route_function args kwargs) s in
  (length (handler_calls (events r)) <= 1)%nat /\
  forall a k snapshot,
    (a, k, snapshot) ∈ handler_calls (events r) ->
    k = kwargs /\
    match dec with
    | Autologout => a = args
    | _ => exists injected, a = injected :: args
    end.
Proof.
  intros r. subst r.
  pose proof after_route_handler_calls as Hcalls.
  unfold events, handler_calls in Hcalls. unfold events, handler_calls.
  destruct dec; simpl decorate;
    [unfold autologin | unfold login_code | unfold login_autoexchange
     | unfold logged_in | unfold autologout];
    unfold_py; simpl;
    repeat (case_match; simpl in *; simplify_eq;
            rewrite ?route_then_pending_redirect_eq, ?Hcalls);
    simpl; rewrite ?omap_app; simpl;
    (split; [lia|]); intros ? ? ? Hin;
    try (inversion Hin; fail);
    apply list_elem_of_singleton in Hin; simplify_eq; eauto.
Qed.

(** X12. In an [autologin] run whose route function returned without a
    truthy entry under the [rd] key (none, or an empty one), the response is
    the route's result and the session is as the route left it; when the
    route function raised, the exception is the outcome and nothing is
    popped. *)
Theorem autologin_without_pending_redirect_returns_result
    (self : FlaskIntegration) (w : World) (request : Request)
    (route_function : handler) (args : list pyval)
    (kwargs : list (string * pyval)) (s : gmap string atom)
    (a : list pyval) (k : list (string * pyval)) (snapshot : gmap string atom)
    (o : outcome response) (s' : gmap string atom) :
  let r := run (autologin self w request route_function args kwargs) s in
  (a, k, snapshot) ∈ handler_calls (events r) ->
  route_function a k snapshot = (o, s') ->
  (forall result, o = Returned result ->
     truthy (session_lookup s' (session_rd self)) = false) ->
  response_of r = o /\ final_session r = s'.
Proof.
  intros r Hin Hcall Hrd.
  destruct (autologin_shape self w request route_function args kwargs s)
    as [Hnone | (tok & st0 & Hr & H0)]; fold r in Hnone || fold r in Hr.
  - rewrite Hnone in Hin. inversion Hin.
  - rewrite Hr, after_route_handler_calls, H0 in Hin. simpl in Hin.
    apply list_elem_of_singleton in Hin. injection Hin as -> -> ->.
    rewrite Hr. unfold response_of, final_session. destruct o as [result|e].
    + rewrite (after_route_no_pending _ _ _ _ _ _ result s') by eauto.
      split; reflexivity.
    + unfold after_route. rewrite Hcall. split; reflexivity.
Qed.

Lemma autologin_without_pending_redirect_returns_result_witness :
  let r := run (autologin Scenario.fi Scenario.world Scenario.plain_request
                  Fixtures.marking_page [] []) Scenario.live_session in
  response_of r = Returned (Content "done") /\
  final_session r = <["seen" := AInt 1]> Scenario.live_session.
Proof.
  apply (autologin_without_pending_redirect_returns_result Scenario.fi
           Scenario.world Scenario.plain_request Fixtures.marking_page [] []
           Scenario.live_session
           [VAtom (AStr "live")] [] Scenario.live_session).
  - rewrite autologin_stored_token_run by reflexivity.
    rewrite after_route_handler_calls. apply list_elem_of_here.
  - reflexivity.
  - intros result _. reflexivity.
Defined.

(** ** Exceptions that escape *)

(** X13. The validity check is not guarded: when [check_token] raises, the
    four decorators that make it let the exception out; the route function
    is not invoked, nothing is redirected and the session is untouched. *)
Theorem check_token_exception_propagates
    (dec : decorator) (self : FlaskIntegration) (w : World) (request : Request)
    (route_function : handler) (args : list pyval)
    (kwargs : list (string * pyval)) (s : gmap string atom) (e : exn) :
  dec <> Autologout ->
  let thetoken := session_lookup s (session_token self) in
  truthy thetoken = true ->
  check_token w thetoken = Raised e ->
  let r := run (decorate dec self w request route_function args kwargs) s in
  response_of r = Raised e /\
  final_session r = s /\
  events r = [EvCheckToken thetoken].
Proof.
  intros Hdec thetoken H1 H2 r. subst r.
  unfold response_of, final_session, events.
  destruct dec; try contradiction; simpl decorate;
    [unfold autologin | unfold login_code | unfold login_autoexchange
     | unfold logged_in];
    unfold run, bind, session_get, stored_token_valid, call_check_token, log;
    simpl; fold thetoken; rewrite H1, H2; repeat split.
Qed.

Lemma check_token_exception_propagates_witness :
  let r := run (logged_in Scenario.fi Fixtures.down_world Scenario.plain_request
                  Scenario.page [] []) Scenario.live_session in
  response_of r = Raised (ClientError "service down") /\
  final_session r = Scenario.live_session /\
  events r = [EvCheckToken (AStr "live")].
Proof.
  apply (check_token_exception_propagates LoggedIn Scenario.fi
           Fixtures.down_world Scenario.plain_request Scenario.page [] []
           Scenario.live_session (ClientError "service down"));
    [discriminate | reflexivity | reflexivity].
Defined.



(** ** Requests in sequence *)

(** X15. The way back to the requested page.  A [logged_in] request
    without a valid token records its URL and redirects to the login URL;
    when the next request on that session reaches an [autologin] route with
    a code that the token endpoint accepts, and the route function returns
    leaving the [rd] key alone, the token is stored and the response is a
    redirect to the URL recorded first, whose [rd] entry is consumed. *)
Theorem logged_in_then_autologin_returns_to_page
    (self : FlaskIntegration) (w : World) (app : Flask) (cardboard : Cardboard)
    (session_prefix : string) (login_url : option string)
    (first second : Request) (guarded login : handler)
    (args1 args2 : list pyval) (kwargs1 kwargs2 : list (string * pyval))
    (s : gmap string atom) (code : string) (resp : HttpResponse)
    (d : gmap string atom) (tok : AuthToken) (e : Z)
    (result : response) (s2 : gmap string atom) :
  FlaskIntegration_init w app cardboard session_prefix login_url = Returned self ->
  let thetoken := session_lookup s (session_token self) in
  truthy thetoken = false \/ check_token w thetoken = Returned false ->
  url first <> "" ->
  args_code second = Some code ->
  code <> "" ->
  http_post w (token_endpoint self) (exchange_data self code) exchange_headers
  = Returned resp ->
  status resp = 200 ->
  response_json resp = Returned (JObj d) ->
  AuthToken_init d = Returned tok ->
  expires_in tok = AInt e ->
  let r1 := run (logged_in self w first guarded args1 kwargs1) s in
  let r2 := run (autologin self w second login args2 kwargs2) (final_session r1) in
  let stored :=
    <[session_refresh self := refresh_token tok]>
      (<[session_expiry self := AInt (time_now w + e)]>
         (<[session_token self := token tok]>
            (<[session_rd self := AStr (url first)]> s))) in
  login (VAuthToken tok :: args2) kwargs2 stored = (Returned result, s2) ->
  s2 !! session_rd self = stored !! session_rd self ->
  response_of r1 = Returned (Redirect (AStr (app_login_redirect self))) /\
  handler_calls (events r1) = [] /\
  handler_calls (events r2) = [(VAuthToken tok :: args2, kwargs2, stored)] /\
  response_of r2 = Returned (Redirect (AStr (url first))) /\
  final_session r2 = delete (session_rd self) s2.
Proof.
  intros Hinit thetoken Hinvalid Hurl Hcode Hne Hp Hs Hj Ht He r1 r2 stored
    Hcall Hkeep.
  apply init_keys_wf in Hinit as [Htr Hte Htd Hre Hrd Hed].
  assert (H1 : r1 = (Returned (Redirect (AStr (app_login_redirect self))),
                     {| sess := <[session_rd self := AStr (url first)]> s;
                        trace := (if truthy thetoken
                                  then [EvCheckToken thetoken] else []) ++
                                 [EvSessionSet (session_rd self)
                                    (AStr (url first))] |})).
  { subst r1. unfold logged_in.
    rewrite run_without_valid_token by exact Hinvalid. reflexivity. }
  assert (Hsame : session_lookup (<[session_rd self := AStr (url first)]> s)
                    (session_token self) = thetoken).
  { unfold session_lookup. rewrite lookup_insert_ne by congruence. reflexivity. }
  assert (Hinvalid' :
            truthy (session_lookup (<[session_rd self := AStr (url first)]> s)
                      (session_token self)) = false \/
            check_token w
              (session_lookup (<[session_rd self := AStr (url first)]> s)
                 (session_token self)) = Returned false)
    by (rewrite Hsame; exact Hinvalid).
  pose proof (autologin_exchange_run self w second login args2 kwargs2
                (<[session_rd self := AStr (url first)]> s) code resp d tok e
                Hinvalid' Hcode Hne Hp Hs Hj Ht He) as H2.
  assert (Hfs : final_session r1 = <[session_rd self := AStr (url first)]> s)
    by (rewrite H1; reflexivity).
  assert (Hback : s2 !! session_rd self = Some (AStr (url first))).
  { rewrite Hkeep. subst stored.
    rewrite !lookup_insert_ne by congruence. apply lookup_insert_eq. }
  assert (Htruthy : truthy (AStr (url first)) = true).
  { simpl. apply negb_true_iff, String.eqb_neq. exact Hurl. }
  split; [rewrite H1; reflexivity|].
  split; [rewrite H1; unfold events, handler_calls; simpl;
          rewrite omap_app; destruct (truthy thetoken); reflexivity|].
  subst r2. rewrite Hfs, H2. split.
  - rewrite after_route_handler_calls. simpl.
    unfold handler_calls. rewrite !omap_app. simpl. rewrite Hsame.
    destruct (truthy thetoken); reflexivity.
  - rewrite (after_route_pending self login (VAuthToken tok) args2 kwargs2 _
               result s2 (AStr (url first))) by assumption.
    split; reflexivity.
Qed.

Lemma logged_in_then_autologin_returns_to_page_witness :
  let r1 := run (logged_in Scenario.fi Scenario.world Scenario.plain_request
                   Scenario.page [] []) ∅ in
  let r2 := run (autologin Scenario.fi Scenario.world Scenario.code_request
                   Scenario.page [] []) (final_session r1) in
  response_of r1 = Returned (Redirect (AStr (app_login_redirect Scenario.fi))) /\
  response_of r2 = Returned (Redirect (AStr "/dashboard")) /\
  final_session r2 !! session_rd Scenario.fi = None /\
  final_session r2 !! session_token Scenario.fi = Some (AStr "T").
Proof.
  destruct (logged_in_then_autologin_returns_to_page Scenario.fi Scenario.world
              Scenario.app Scenario.client "cardboard_" None
              Scenario.plain_request Scenario.code_request
              Scenario.page Scenario.page [] [] [] [] ∅ "abc123"
              {| status := 200;
                 response_json := Returned (JObj Scenario.token_body) |}
              Scenario.token_body Scenario.exchanged 3600 (Content "ok")
              (<[session_refresh Scenario.fi := AStr "R"]>
                 (<[session_expiry Scenario.fi := AInt (1700000000 + 3600)]>
                    (<[session_token Scenario.fi := AStr "T"]>
                       (<[session_rd Scenario.fi := AStr "/dashboard"]> ∅)))))
    as (H1 & _ & _ & H2 & H3); try reflexivity.
  - left. reflexivity.
  - discriminate.
  - discriminate.
  - split; [exact H1|]. split; [exact H2|]. rewrite H3. split.
    + apply lookup_delete_eq.
    + reflexivity.
Defined.





(** ** Calls to the identity service *)

(** X18. Each request asks for the validity of the stored token at most
    once: [autologin], [login_code], [login_autoexchange] and [logged_in]
    make the check exactly when the session holds a truthy token, on that
    token, and [autologout] never makes it. *)
Theorem token_checked_once_iff_stored
    (dec : decorator) (self : FlaskIntegration) (w : World) (request : Request)
    (route_function : handler) (args : list pyval)
    (kwargs : list (string * pyval)) (s : gmap string atom) :
  let thetoken := session_lookup s (session_token self) in
  let r := run (decorate dec self w request route_function args kwargs) s in
  check_calls (events r)
  = match dec with
    | Autologout => []
    | _ => if truthy thetoken then [thetoken] else []
    end.
Proof.
  intros thetoken r. subst r thetoken.
  pose proof after_route_check_calls as Hcheck.
  unfold events, check_calls in Hcheck. unfold events, check_calls.
  destruct dec; simpl decorate;
    [unfold autologin | unfold login_code | unfold login_autoexchange
     | unfold logged_in | unfold autologout];
    unfold_py; simpl;
    repeat (case_match; simpl in *; simplify_eq;
            rewrite ?route_then_pending_redirect_eq, ?Hcheck);
    simpl; rewrite ?omap_app; simpl; reflexivity.
Qed.

(** X19. Which decorator can do what.  Only [autologin] and
    [login_autoexchange] ever post to the token endpoint, only [autologin]
    and [logged_in] ever call the refresh endpoint, only [autologout] ever
    asks for a revocation, and [login_code] and [login_autoexchange] never
    write a session key. *)
Theorem side_effects_by_decorator
    (dec : decorator) (self : FlaskIntegration) (w : World) (request : Request)
    (route_function : handler) (args : list pyval)
    (kwargs : list (string * pyval)) (s : gmap string atom) :
  let r := run (decorate dec self w request route_function args kwargs) s in
  (post_calls (events r) <> [] -> dec = Autologin \/ dec = LoginAutoexchange) /\
  (refresh_calls (events r) <> [] -> dec = Autologin \/ dec = LoggedIn) /\
  (revoke_calls (events r) <> [] -> dec = Autologout) /\
  (written_keys (events r) <> [] ->
   dec = Autologin \/ dec = LoggedIn \/ dec = Autologout).
Proof.
  intros r. subst r.
  assert (Hrev : forall tok st,
            omap revoke_call (trace (after_route self route_function tok args kwargs st).2)
            = omap revoke_call (trace st)).
  { intros tok st. unfold after_route.
    split_run; rewrite ?omap_app; simpl; rewrite ?app_nil_r; reflexivity. }
  unfold events, post_calls, refresh_calls, revoke_calls, written_keys.
  destruct dec; simpl decorate; repeat split; auto;
    try unfold autologin; try unfold login_code; try unfold login_autoexchange;
    try unfold logged_in; try unfold autologout;
    unfold_py; simpl;
    repeat (case_match; simpl in *; simplify_eq;
            rewrite ?route_then_pending_redirect_eq, ?Hrev);
    simpl; rewrite ?omap_app; simpl; congruence.
Qed.
